(** * EBR workflow engine: condition evaluator, catalog, authorizer,
      executor, approval orchestrator and escalation sweep.

    Shallow embedding of
      backend/apps/workflow/engine/conditions.py
      backend/apps/workflow/engine/state_machine.py
      backend/apps/workflow/models/definitions.py
      backend/apps/workflow/models/instances.py
      backend/apps/workflow/views/definitions.py
    and the properties of these functions. *)

From Stdlib Require Import ZArith QArith List String Ascii Bool Arith Lia.
Import ListNotations.
Close Scope Q_scope.
Set Warnings "-register-all".
Open Scope string_scope.
Open Scope list_scope.

(* ================================================================== *)
(** ** Python values and exceptions *)
(* ================================================================== *)

Module Py.

(** The exceptions the embedded code can raise. *)
Inductive exn : Type :=
| TypeError
| IndexError
| AttributeError
| ValueError (msg : string).

(** Outcome of running Python code: a value, a raised exception, or
    the recursion budget of the embedding exhausted. *)
Inductive res (A : Type) : Type :=
| Ret (a : A)
| Raise (e : exn)
| OutOfFuel.
Arguments Ret {A} a.
Arguments Raise {A} e.
Arguments OutOfFuel {A}.

Definition bind {A B} (m : res A) (k : A -> res B) : res B :=
  match m with
  | Ret a => k a
  | Raise e => Raise e
  | OutOfFuel => OutOfFuel
  end.

Notation "x <- m ;; k" := (bind m (fun x => k))
  (at level 61, m at next level, right associativity).

(** JSON-shaped Python values: [None], [bool], [int], [float], [str],
    [list] and [dict] with string keys in insertion order.  A float is
    represented by the rational it denotes (rounding, infinities and NaN
    are not represented). *)
Inductive Value : Type :=
| VNone
| VBool (b : bool)
| VInt (z : Z)
| VFloat (q : Q)
| VStr (s : string)
| VList (l : list Value)
| VDict (d : list (string * Value)).

(** [dict.get(key)] *)
Fixpoint dict_get (d : list (string * Value)) (k : string) : option Value :=
  match d with
  | [] => None
  | (k', v) :: r => if String.eqb k' k then Some v else dict_get r k
  end.

(** [d[key] = v]: an existing key keeps its position. *)
Fixpoint dict_set (d : list (string * Value)) (k : string) (v : Value)
  : list (string * Value) :=
  match d with
  | [] => [(k, v)]
  | (k', v') :: r =>
      if String.eqb k' k then (k', v) :: r else (k', v') :: dict_set r k v
  end.

(** Python numbers: [bool] is a subtype of [int]. *)
Inductive num : Type :=
| NInt (z : Z)
| NFloat (q : Q).

Definition as_num (v : Value) : option num :=
  match v with
  | VBool b => Some (NInt (if b then 1 else 0)%Z)
  | VInt z => Some (NInt z)
  | VFloat q => Some (NFloat q)
  | _ => None
  end.

Definition of_num (n : num) : Value :=
  match n with
  | NInt z => VInt z
  | NFloat q => VFloat q
  end.

Definition num_Q (n : num) : Q :=
  match n with
  | NInt z => inject_Z z
  | NFloat q => q
  end.

Definition num_eqb (a b : num) : bool :=
  match a, b with
  | NInt x, NInt y => Z.eqb x y
  | _, _ => Qeq_bool (num_Q a) (num_Q b)
  end.

Definition num_ltb (a b : num) : bool :=
  match a, b with
  | NInt x, NInt y => Z.ltb x y
  | _, _ => negb (Qle_bool (num_Q b) (num_Q a))
  end.

Definition num_leb (a b : num) : bool :=
  match a, b with
  | NInt x, NInt y => Z.leb x y
  | _, _ => Qle_bool (num_Q a) (num_Q b)
  end.

Definition num_binop (fz : Z -> Z -> Z) (fq : Q -> Q -> Q) (a b : num) : num :=
  match a, b with
  | NInt x, NInt y => NInt (fz x y)
  | _, _ => NFloat (fq (num_Q a) (num_Q b))
  end.

Definition num_add := num_binop Z.add Qplus.
Definition num_sub := num_binop Z.sub Qminus.
Definition num_mul := num_binop Z.mul Qmult.

Definition num_neg (a : num) : num :=
  match a with
  | NInt x => NInt (- x)
  | NFloat q => NFloat (Qopp q)
  end.

(** True division [a / b] for [b <> 0]: always a float. *)
Definition num_truediv (a b : num) : num :=
  NFloat (Qdiv (num_Q a) (num_Q b)).

(** [bool(v)] *)
Definition truthy (v : Value) : bool :=
  match v with
  | VNone => false
  | VBool b => b
  | VInt z => negb (Z.eqb z 0)
  | VFloat q => negb (Qeq_bool q 0)
  | VStr s => negb (String.eqb s "")
  | VList l => match l with [] => false | _ => true end
  | VDict d => match d with [] => false | _ => true end
  end.

(** [a == b]; dictionaries compare as mappings, order-insensitively. *)
Fixpoint py_eq (a b : Value) {struct a} : bool :=
  match a, b with
  | VNone, VNone => true
  | VStr s, VStr t => String.eqb s t
  | VList l1, VList l2 =>
      (fix go (l1 l2 : list Value) {struct l1} : bool :=
         match l1, l2 with
         | [], [] => true
         | x :: xs, y :: ys => py_eq x y && go xs ys
         | _, _ => false
         end) l1 l2
  | VDict d1, VDict d2 =>
      Nat.eqb (List.length d1) (List.length d2) &&
      (fix go (d : list (string * Value)) {struct d} : bool :=
         match d with
         | [] => true
         | (k, v) :: r =>
             match dict_get d2 k with
             | Some w => py_eq v w
             | None => false
             end && go r
         end) d1
  | _, _ =>
      match as_num a, as_num b with
      | Some x, Some y => num_eqb x y
      | _, _ => false
      end
  end.

(** *** Strings *)

(** [s.startswith(p)] *)
Fixpoint startswith (s p : string) : bool :=
  match p, s with
  | EmptyString, _ => true
  | String c p', String d s' => Ascii.eqb c d && startswith s' p'
  | String _ _, EmptyString => false
  end.

(** [p in s] for strings: [p] occurs as a contiguous substring. *)
Fixpoint str_contains (s p : string) : bool :=
  startswith s p ||
  match s with
  | EmptyString => false
  | String _ s' => str_contains s' p
  end.

(** [s.split(sep)] for a one-character separator: always at least one
    part; adjacent separators give empty parts. *)
Fixpoint split_on (sep : ascii) (s : string) : string * list string :=
  match s with
  | EmptyString => (EmptyString, [])
  | String c s' =>
      let (hd, tl) := split_on sep s' in
      if Ascii.eqb c sep then (EmptyString, hd :: tl)
      else (String c hd, tl)
  end.

Definition split (s : string) (sep : ascii) : list string :=
  let (hd, tl) := split_on sep s in hd :: tl.

(** Lexicographic order on strings by character code. *)
Fixpoint str_ltb (s t : string) : bool :=
  match s, t with
  | _, EmptyString => false
  | EmptyString, String _ _ => true
  | String c s', String d t' =>
      let x := nat_of_ascii c in
      let y := nat_of_ascii d in
      if Nat.ltb x y then true
      else if Nat.ltb y x then false
      else str_ltb s' t'
  end.

Definition str_leb (s t : string) : bool := negb (str_ltb t s).

(** [s * n]: repetition; empty for [n <= 0]. *)
Fixpoint str_repeat (s : string) (n : nat) : string :=
  match n with
  | O => EmptyString
  | S n' => String.append s (str_repeat s n')
  end.

Fixpoint list_repeat {A} (l : list A) (n : nat) : list A :=
  match n with
  | O => []
  | S n' => l ++ list_repeat l n'
  end.

(** *** Ordering, membership and arithmetic on values *)

Inductive cmpop : Type := OpLt | OpGt | OpLe | OpGe.

Definition num_cmp (op : cmpop) (x y : num) : bool :=
  match op with
  | OpLt => num_ltb x y
  | OpGt => num_ltb y x
  | OpLe => num_leb x y
  | OpGe => num_leb y x
  end.

Definition str_cmp (op : cmpop) (s t : string) : bool :=
  match op with
  | OpLt => str_ltb s t
  | OpGt => str_ltb t s
  | OpLe => str_leb s t
  | OpGe => str_leb t s
  end.

Definition len_cmp (op : cmpop) (m n : nat) : bool :=
  match op with
  | OpLt => Nat.ltb m n
  | OpGt => Nat.ltb n m
  | OpLe => Nat.leb m n
  | OpGe => Nat.leb n m
  end.

(** [a < b], [a > b], [a <= b], [a >= b].  Numbers compare with numbers,
    strings with strings, lists with lists (at the first position whose
    elements are not equal, else by length); every other pairing raises
    [TypeError]. *)
Fixpoint py_compare (op : cmpop) (a b : Value) {struct a} : res bool :=
  match a, b with
  | VStr s, VStr t => Ret (str_cmp op s t)
  | VList l1, VList l2 =>
      (fix go (l1 l2 : list Value) {struct l1} : res bool :=
         match l1, l2 with
         | x :: xs, y :: ys =>
             if py_eq x y then go xs ys else py_compare op x y
         | _, _ => Ret (len_cmp op (List.length l1) (List.length l2))
         end) l1 l2
  | _, _ =>
      match as_num a, as_num b with
      | Some x, Some y => Ret (num_cmp op x y)
      | _, _ => Raise TypeError
      end
  end.

(** [value in collection] *)
Definition py_in (value collection : Value) : res bool :=
  match collection with
  | VStr s =>
      match value with
      | VStr p => Ret (str_contains s p)
      | _ => Raise TypeError
      end
  | VList l => Ret (existsb (fun x => py_eq x value) l)
  | VDict d =>
      match value with
      | VStr k => Ret (match dict_get d k with Some _ => true | None => false end)
      | VList _ | VDict _ => Raise TypeError
      | _ => Ret false
      end
  | _ => Raise TypeError
  end.

(** [a + b]; in [sum] the left operand is the running total, a number. *)
Definition py_add (a b : Value) : res Value :=
  match as_num a, as_num b with
  | Some x, Some y => Ret (of_num (num_add x y))
  | _, _ =>
      match a, b with
      | VStr s, VStr t => Ret (VStr (String.append s t))
      | VList l1, VList l2 => Ret (VList (l1 ++ l2))
      | _, _ => Raise TypeError
      end
  end.

(** [-a] *)
Definition py_neg (a : Value) : res Value :=
  match as_num a with
  | Some x => Ret (of_num (num_neg x))
  | None => Raise TypeError
  end.

(** [a - b] *)
Definition py_sub (a b : Value) : res Value :=
  match as_num a, as_num b with
  | Some x, Some y => Ret (of_num (num_sub x y))
  | _, _ => Raise TypeError
  end.

(** The repetition count of a sequence: an [int] or a [bool]. *)
Definition as_index (v : Value) : option Z :=
  match v with
  | VBool b => Some (if b then 1 else 0)%Z
  | VInt z => Some z
  | _ => None
  end.

(** [a * b]: product of numbers, or repetition of a string or list by
    an integer on either side. *)
Definition py_mul (a b : Value) : res Value :=
  match as_num a, as_num b with
  | Some x, Some y => Ret (of_num (num_mul x y))
  | _, _ =>
      match a, as_index b, as_index a, b with
      | VStr s, Some n, _, _ => Ret (VStr (str_repeat s (Z.to_nat n)))
      | VList l, Some n, _, _ => Ret (VList (list_repeat l (Z.to_nat n)))
      | _, _, Some n, VStr s => Ret (VStr (str_repeat s (Z.to_nat n)))
      | _, _, Some n, VList l => Ret (VList (list_repeat l (Z.to_nat n)))
      | _, _, _, _ => Raise TypeError
      end
  end.

(** [a / b] for a divisor that is not equal to zero. *)
Definition py_truediv (a b : Value) : res Value :=
  match as_num a, as_num b with
  | Some x, Some y => Ret (of_num (num_truediv x y))
  | _, _ => Raise TypeError
  end.

(** Induction over values that reaches the elements of lists and the
    entries of dictionaries. *)
Section ValueInduction.

Variable P : Value -> Prop.
Hypothesis HNone : P VNone.
Hypothesis HBool : forall b, P (VBool b).
Hypothesis HInt : forall z, P (VInt z).
Hypothesis HFloat : forall q, P (VFloat q).
Hypothesis HStr : forall s, P (VStr s).
Hypothesis HList : forall l, Forall P l -> P (VList l).
Hypothesis HDict : forall d, Forall (fun kv => P (snd kv)) d -> P (VDict d).


End ValueInduction.


End Py.

(* ================================================================== *)
(** ** Condition evaluator (engine/conditions.py) *)
(* ================================================================== *)

Module Conditions.
Import Py.

(** [args[i]] *)
Definition item (args : list Value) (i : nat) : res Value :=
  match nth_error args i with
  | Some v => Ret v
  | None => Raise IndexError
  end.

(** [all(ev(arg) for arg in args)]: stops at the first falsy value. *)
Fixpoint py_all (ev : Value -> res Value) (args : list Value) : res Value :=
  match args with
  | [] => Ret (VBool true)
  | x :: r => v <- ev x ;; if truthy v then py_all ev r else Ret (VBool false)
  end.

(** [any(ev(arg) for arg in args)]: stops at the first truthy value. *)
Fixpoint py_any (ev : Value -> res Value) (args : list Value) : res Value :=
  match args with
  | [] => Ret (VBool false)
  | x :: r => v <- ev x ;; if truthy v then Ret (VBool true) else py_any ev r
  end.

(** [sum(ev(arg) for arg in args)] with the running total [acc]
    (initially the integer 0). *)
Fixpoint py_sum (ev : Value -> res Value) (args : list Value) (acc : Value)
  : res Value :=
  match args with
  | [] => Ret acc
  | x :: r => v <- ev x ;; acc' <- py_add acc v ;; py_sum ev r acc'
  end.

(** [for arg in args: result *= ev(arg)] *)
Fixpoint py_prod (ev : Value -> res Value) (args : list Value) (result : Value)
  : res Value :=
  match args with
  | [] => Ret result
  | x :: r => v <- ev x ;; result' <- py_mul result v ;; py_prod ev r result'
  end.

(** The loop of the ['all'] operator over the items of the array. *)
Fixpoint all_items (ev : list (string * Value) -> res Value)
  (data : list (string * Value)) (array : list Value) : res Value :=
  match array with
  | [] => Ret (VBool true)
  | it :: r =>
      v <- ev (dict_set data "_item" it) ;;
      if truthy v then all_items ev data r else Ret (VBool false)
  end.

(** The loop of the ['some'] operator. *)
Fixpoint some_items (ev : list (string * Value) -> res Value)
  (data : list (string * Value)) (array : list Value) : res Value :=
  match array with
  | [] => Ret (VBool false)
  | it :: r =>
      v <- ev (dict_set data "_item" it) ;;
      if truthy v then Ret (VBool true) else some_items ev data r
  end.


Section Evaluator.

(** [hasattr]/[getattr] on a value that is not a dict: [Some v] when
    the attribute exists with value [v], [None] when [hasattr] is
    false.  The attribute tables of the built-in types are not part of
    the repository. *)
Variable getattr : Value -> string -> option Value.

(** The [for part in parts] loop of [_get_var]. *)
Fixpoint get_var_loop (parts : list string) (value default : Value) : Value :=
  match parts with
  | [] => value
  | part :: rest =>
      let step :=
        match value with
        | VDict d =>
            Some (match dict_get d part with Some v => v | None => VNone end)
        | _ => getattr value part
        end in
      match step with
      | None => default
      | Some VNone => default
      | Some v => get_var_loop rest v default
      end
  end.

(** [_get_var(data, var_name, default)] *)
Definition _get_var (data var_name default : Value) : res Value :=
  if negb (truthy var_name) then Ret data
  else
    match var_name with
    | VStr s => Ret (get_var_loop (split s ".") data default)
    | _ => Raise AttributeError
    end.

(** The loop of the ['missing'] operator. *)
Fixpoint missing_loop (data : list (string * Value)) (args : list Value)
  : res Value :=
  match args with
  | [] => Ret (VBool false)
  | var_name :: r =>
      value <- _get_var (VDict data) var_name VNone ;;
      match value with
      | VNone => Ret (VBool true)
      | _ => if py_eq value (VStr "") then Ret (VBool true)
             else missing_loop data r
      end
  end.

(** The operator dispatch of [_evaluate] on the operator and its
    argument list; [ev] is the recursive call of [_evaluate]. *)
Definition eval_node (ev : Value -> list (string * Value) -> res Value)
  (operator : string) (args : list Value) (data : list (string * Value))
  : res Value :=
  let arg := fun i => (e <- item args i ;; ev e data) in
  let compare := fun op =>
    (x <- arg 0%nat ;; y <- arg 1%nat ;;
     b <- py_compare op x y ;; Ret (VBool b)) in
  if operator =? "and" then py_all (fun e => ev e data) args
  else if operator =? "or" then py_any (fun e => ev e data) args
  else if operator =? "not" then
    x <- arg 0%nat ;; Ret (VBool (negb (truthy x)))
  else if operator =? "==" then
    x <- arg 0%nat ;; y <- arg 1%nat ;; Ret (VBool (py_eq x y))
  else if operator =? "!=" then
    x <- arg 0%nat ;; y <- arg 1%nat ;; Ret (VBool (negb (py_eq x y)))
  else if operator =? "<" then compare OpLt
  else if operator =? ">" then compare OpGt
  else if operator =? "<=" then compare OpLe
  else if operator =? ">=" then compare OpGe
  else if operator =? "in" then
    value <- arg 0%nat ;; collection <- arg 1%nat ;;
    b <- py_in value collection ;; Ret (VBool b)
  else if operator =? "contains" then
    collection <- arg 0%nat ;; value <- arg 1%nat ;;
    b <- py_in value collection ;; Ret (VBool b)
  else if operator =? "var" then
    var_name <- item args 0 ;;
    let default := match args with _ :: d :: _ => d | _ => VNone end in
    _get_var (VDict data) var_name default
  else if operator =? "if" then
    condition <- arg 0%nat ;;
    if truthy condition then
      if Nat.ltb 1 (List.length args) then arg 1%nat else Ret (VBool true)
    else
      if Nat.ltb 2 (List.length args) then arg 2%nat else Ret (VBool false)
  else if operator =? "missing" then missing_loop data args
  else if operator =? "all" then
    array <- arg 0%nat ;;
    condition_template <- item args 1 ;;
    match array with
    | VList l => all_items (ev condition_template) data l
    | _ => Ret (VBool false)
    end
  else if operator =? "some" then
    array <- arg 0%nat ;;
    condition_template <- item args 1 ;;
    match array with
    | VList l => some_items (ev condition_template) data l
    | _ => Ret (VBool false)
    end
  else if operator =? "+" then py_sum (fun e => ev e data) args (VInt 0)
  else if operator =? "-" then
    if Nat.eqb (List.length args) 1 then x <- arg 0%nat ;; py_neg x
    else x <- arg 0%nat ;; y <- arg 1%nat ;; py_sub x y
  else if operator =? "*" then py_prod (fun e => ev e data) args (VInt 1)
  else if operator =? "/" then
    dividend <- arg 0%nat ;;
    divisor <- arg 1%nat ;;
    if py_eq divisor (VInt 0) then Ret VNone
    else py_truediv dividend divisor
  else Ret VNone.

(** [args = expression[operator]], wrapped in a list when it is not
    one. *)
Definition args_of (a : Value) : list Value :=
  match a with
  | VList l => l
  | _ => [a]
  end.

(** [_evaluate(expression, data)].  [fuel] bounds the nesting depth of
    the recursion. *)
Fixpoint _evaluate (fuel : nat) (expression : Value)
  (data : list (string * Value)) {struct fuel} : res Value :=
  match fuel with
  | O => OutOfFuel
  | S fuel' =>
    match expression with
    | VDict [] => Raise IndexError
    | VDict ((operator, a) :: _) =>
        eval_node (_evaluate fuel') operator (args_of a) data
    | _ => Ret expression
    end
  end.

(** The node [{operator: args, ...}] evaluated one level above its
    operands. *)
Definition node (fuel : nat) (data : list (string * Value))
  (rest : list (string * Value)) (operator : string) (args : list Value)
  : res Value :=
  _evaluate (S fuel) (VDict ((operator, VList args) :: rest)) data.

(** A Django model instance the workflow is attached to: its primary
    key (as [str(record.pk)]) and its [__dict__].  No model of the
    repository defines [to_dict], so [hasattr(record, 'to_dict')] is
    false; [hasattr(record, name)] is membership in [__dict__]. *)
Record record : Type := {
  record_pk : string;
  record_dict : list (string * Value)
}.

Definition record_hasattr (r : record) (name : string) : bool :=
  match dict_get (record_dict r) name with Some _ => true | None => false end.

(** [_get_record_data(record)] *)
Definition _get_record_data (r : record) : list (string * Value) :=
  let data :=
    fold_left
      (fun data kv =>
         if startswith (fst kv) "_" then data
         else dict_set data (fst kv) (snd kv))
      (record_dict r) [] in
  let data := dict_set data "_id" (VStr (record_pk r)) in
  let data :=
    match dict_get (record_dict r) "status" with
    | Some v => dict_set data "_status" v
    | None => data
    end in
  match dict_get (record_dict r) "created_at" with
  | Some v => dict_set data "_created_at" v
  | None => data
  end.

(** Nesting depth of a JSON value: the recursion of [_evaluate] on an
    expression never goes deeper. *)
Fixpoint depth (v : Value) : nat :=
  match v with
  | VList l =>
      S ((fix go (l : list Value) : nat :=
            match l with
            | [] => O
            | x :: r => Nat.max (depth x) (go r)
            end) l)
  | VDict d =>
      S ((fix go (d : list (string * Value)) : nat :=
            match d with
            | [] => O
            | (_, x) :: r => Nat.max (depth x) (go r)
            end) d)
  | _ => O
  end.

(** [evaluate_conditions(conditions, record)]: the value whose truth
    the caller tests.  The recursion budget is the depth of the
    expression, which [_evaluate] never exceeds. *)
Definition evaluate_conditions (conditions : Value) (r : record)
  : res Value :=
  if negb (truthy conditions) then Ret (VBool true)
  else _evaluate (S (depth conditions)) conditions (_get_record_data r).

End Evaluator.

(** An attribute table under which no non-dict value has attributes;
    the concrete evaluations below walk dictionaries only. *)
Definition no_attrs : Value -> string -> option Value := fun _ _ => None.

End Conditions.

(* ================================================================== *)
(** ** Workflow models (models/definitions.py, models/instances.py) *)
(* ================================================================== *)

Module Workflow.
Import Py Conditions.

(** Primary keys (UUIDs in the source). *)
Definition pk := nat.

Inductive DefinitionStatus : Type := DRAFT | ACTIVE | DEPRECATED | ARCHIVED.

Inductive ApprovalType : Type := SINGLE | ALL | ANY | MAJORITY | SEQUENTIAL.

Inductive InstanceStatus : Type :=
| INST_ACTIVE | INST_COMPLETED | INST_CANCELLED | INST_SUSPENDED.

Inductive RequestStatus : Type :=
| PENDING | APPROVED | REJECTED | ESCALATED | EXPIRED | CANCELLED.

Definition DefinitionStatus_eqb (a b : DefinitionStatus) : bool :=
  match a, b with
  | DRAFT, DRAFT | ACTIVE, ACTIVE
  | DEPRECATED, DEPRECATED | ARCHIVED, ARCHIVED => true
  | _, _ => false
  end.

Definition RequestStatus_eqb (a b : RequestStatus) : bool :=
  match a, b with
  | PENDING, PENDING | APPROVED, APPROVED | REJECTED, REJECTED
  | ESCALATED, ESCALATED | EXPIRED, EXPIRED | CANCELLED, CANCELLED => true
  | _, _ => false
  end.

Definition InstanceStatus_eqb (a b : InstanceStatus) : bool :=
  match a, b with
  | INST_ACTIVE, INST_ACTIVE | INST_COMPLETED, INST_COMPLETED
  | INST_CANCELLED, INST_CANCELLED | INST_SUSPENDED, INST_SUSPENDED => true
  | _, _ => false
  end.

Record User : Type := {
  user_id : pk;
  email : string;
  (** the result of [get_all_permissions_set()] *)
  user_permissions : list string;
  (** [roles.values_list('code', flat=True)] *)
  user_roles : list string
}.

Record WorkflowDefinition : Type := {
  wf_id : pk;
  wf_name : string;
  wf_status : DefinitionStatus;
  wf_modified_by : option pk
}.

Record WorkflowState : Type := {
  state_id : pk;
  state_workflow_id : pk;
  state_code : string;
  state_name : string;
  is_initial : bool;
  is_terminal : bool;
  auto_transition_enabled : bool;
  auto_transition_to : option pk;
  timeout_hours : option nat;
  timeout_action : string
}.

Record WorkflowTransition : Type := {
  tr_id : pk;
  tr_workflow_id : pk;
  tr_code : string;
  tr_name : string;
  from_state_id : pk;
  to_state : WorkflowState;
  required_permission : string;
  required_roles : list string;
  conditions : Value;
  requires_approval : bool;
  pre_actions : Value;
  post_actions : Value;
  tr_order : nat;
  tr_is_active : bool
}.

Record ApprovalRule : Type := {
  rule_id : pk;
  rule_transition_id : pk;
  approval_type : ApprovalType;
  min_approvals : nat;
  escalation_hours : option nat;
  rule_order : nat
}.

Record WorkflowInstance : Type := {
  inst_id : pk;
  inst_workflow_id : pk;
  inst_current_state : WorkflowState;
  inst_status : InstanceStatus;
  content_object : record;
  state_entered_at : Z;
  state_deadline : option Z;
  completed_at : option Z;
  completed_by : option pk;
  inst_tenant_id : string
}.

(** One row of the state-history ledger (the checksum column, a hash of
    the other columns, is left out). *)
Record StateHistory : Type := {
  h_instance : pk;
  h_from_state : option pk;
  h_to_state : pk;
  h_transition : option pk;
  h_triggered_by : pk;
  h_action : string;
  h_notes : string;
  h_time_in_state : option Z
}.

Record ApprovalRequest : Type := {
  req_id : pk;
  req_instance : pk;
  req_transition : WorkflowTransition;
  req_approval_rule : ApprovalRule;
  req_status : RequestStatus;
  requested_by : User;
  request_notes : string;
  req_deadline : option Z;
  record_snapshot : list (string * Value)
}.

Record ApprovalDecision : Type := {
  dec_request : pk;
  dec_decision : string;
  decided_by : pk;
  dec_comments : string;
  dec_signature : option pk
}.

(** An entry handed to the audit log by [AuditLog.log_action]. *)
Record AuditEntry : Type := {
  audit_user : pk;
  audit_object_id : string;
  audit_old_state : string;
  audit_new_state : string;
  audit_tenant_id : string
}.

(** The tables the engine reads and writes.  Lists hold the rows in
    insertion order; [next_pk] is the source of fresh primary keys. *)
Record Database : Type := {
  db_transitions : list WorkflowTransition;
  db_approval_rules : list ApprovalRule;
  db_users : list User;
  db_instances : list WorkflowInstance;
  db_state_history : list StateHistory;
  db_approval_requests : list ApprovalRequest;
  db_approval_decisions : list ApprovalDecision;
  db_audit_log : list AuditEntry;
  next_pk : pk
}.

(** A [WorkflowEngine] object together with the database and the clock
    it runs against.  [now] is the reading of [django_timezone.now()],
    in seconds; the readings within one call are taken to be equal. *)
Record Engine : Type := {
  instance : WorkflowInstance;
  workflow : pk;
  current_state : WorkflowState;
  db : Database;
  now : Z
}.

(** [WorkflowEngine(instance)] *)
Definition new_engine (i : WorkflowInstance) (d : Database) (t : Z) : Engine :=
  {| instance := i;
     workflow := inst_workflow_id i;
     current_state := inst_current_state i;
     db := d;
     now := t |}.

(** *** Record updates *)

Definition set_db (e : Engine) (d : Database) : Engine :=
  {| instance := instance e; workflow := workflow e;
     current_state := current_state e; db := d; now := now e |}.

Definition set_instance (e : Engine) (i : WorkflowInstance) : Engine :=
  {| instance := i; workflow := workflow e;
     current_state := current_state e; db := db e; now := now e |}.

Definition set_current_state (e : Engine) (s : WorkflowState) : Engine :=
  {| instance := instance e; workflow := workflow e;
     current_state := s; db := db e; now := now e |}.

Definition set_content_object (i : WorkflowInstance) (r : record)
  : WorkflowInstance :=
  {| inst_id := inst_id i; inst_workflow_id := inst_workflow_id i;
     inst_current_state := inst_current_state i; inst_status := inst_status i;
     content_object := r; state_entered_at := state_entered_at i;
     state_deadline := state_deadline i; completed_at := completed_at i;
     completed_by := completed_by i; inst_tenant_id := inst_tenant_id i |}.

Definition set_req_status (r : ApprovalRequest) (s : RequestStatus)
  : ApprovalRequest :=
  {| req_id := req_id r; req_instance := req_instance r;
     req_transition := req_transition r;
     req_approval_rule := req_approval_rule r; req_status := s;
     requested_by := requested_by r; request_notes := request_notes r;
     req_deadline := req_deadline r; record_snapshot := record_snapshot r |}.

(** [Model.save()] on an existing row: the row with the same primary
    key is replaced. *)
Fixpoint save_row {A} (key : A -> pk) (x : A) (rows : list A) : list A :=
  match rows with
  | [] => [x]
  | y :: r => if Nat.eqb (key y) (key x) then x :: r else y :: save_row key x r
  end.

(** [queryset.first()] under a [Meta.ordering] that ends in [order]:
    the row with the least [order], the earliest such row on ties. *)
Fixpoint first_by {A} (key : A -> nat) (rows : list A) : option A :=
  match rows with
  | [] => None
  | x :: r =>
      match first_by key r with
      | Some y => if Nat.ltb (key y) (key x) then Some y else Some x
      | None => Some x
      end
  end.

Definition set_db_instances (d : Database) (x : list WorkflowInstance)
  : Database :=
  {| db_transitions := db_transitions d;
     db_approval_rules := db_approval_rules d; db_users := db_users d;
     db_instances := x; db_state_history := db_state_history d;
     db_approval_requests := db_approval_requests d;
     db_approval_decisions := db_approval_decisions d;
     db_audit_log := db_audit_log d; next_pk := next_pk d |}.

Definition set_db_state_history (d : Database) (x : list StateHistory)
  : Database :=
  {| db_transitions := db_transitions d;
     db_approval_rules := db_approval_rules d; db_users := db_users d;
     db_instances := db_instances d; db_state_history := x;
     db_approval_requests := db_approval_requests d;
     db_approval_decisions := db_approval_decisions d;
     db_audit_log := db_audit_log d; next_pk := next_pk d |}.

Definition set_db_approval_requests (d : Database) (x : list ApprovalRequest)
  : Database :=
  {| db_transitions := db_transitions d;
     db_approval_rules := db_approval_rules d; db_users := db_users d;
     db_instances := db_instances d; db_state_history := db_state_history d;
     db_approval_requests := x;
     db_approval_decisions := db_approval_decisions d;
     db_audit_log := db_audit_log d; next_pk := next_pk d |}.

Definition set_db_approval_decisions (d : Database)
  (x : list ApprovalDecision) : Database :=
  {| db_transitions := db_transitions d;
     db_approval_rules := db_approval_rules d; db_users := db_users d;
     db_instances := db_instances d; db_state_history := db_state_history d;
     db_approval_requests := db_approval_requests d;
     db_approval_decisions := x;
     db_audit_log := db_audit_log d; next_pk := next_pk d |}.

Definition set_db_audit_log (d : Database) (x : list AuditEntry) : Database :=
  {| db_transitions := db_transitions d;
     db_approval_rules := db_approval_rules d; db_users := db_users d;
     db_instances := db_instances d; db_state_history := db_state_history d;
     db_approval_requests := db_approval_requests d;
     db_approval_decisions := db_approval_decisions d;
     db_audit_log := x; next_pk := next_pk d |}.

Definition set_next_pk (d : Database) (x : pk) : Database :=
  {| db_transitions := db_transitions d;
     db_approval_rules := db_approval_rules d; db_users := db_users d;
     db_instances := db_instances d; db_state_history := db_state_history d;
     db_approval_requests := db_approval_requests d;
     db_approval_decisions := db_approval_decisions d;
     db_audit_log := db_audit_log d; next_pk := x |}.

(* ------------------------------------------------------------------ *)
(** *** Catalog and authorizer (models/definitions.py) *)

Section EngineOps.

Variable getattr : Value -> string -> option Value.
(** Python's [str()] on a record attribute. *)
Variable py_str : Value -> string.

(** [WorkflowTransition.can_execute(user, record)] *)
Definition can_execute (t : WorkflowTransition) (user : User) (r : record)
  : res (bool * option string) :=
  if negb (String.eqb (required_permission t) "") &&
     negb (existsb (String.eqb (required_permission t)) (user_permissions user))
  then Ret (false, Some "Missing required permission")
  else if match required_roles t with [] => false | _ => true end &&
          negb (existsb (fun c => existsb (String.eqb c) (required_roles t))
                        (user_roles user))
  then Ret (false, Some "Missing required role")
  else if truthy (conditions t) then
    v <- evaluate_conditions getattr (conditions t) r ;;
    if negb (truthy v) then Ret (false, Some "Conditions not met")
    else Ret (true, None)
  else Ret (true, None).

(* ------------------------------------------------------------------ *)
(** *** State machine engine (engine/state_machine.py) *)

(** [WorkflowEngine.can_execute_transition(transition, user)] *)
Definition can_execute_transition (self : Engine) (t : WorkflowTransition)
  (user : User) : res (bool * option string) :=
  if negb (Nat.eqb (from_state_id t) (state_id (current_state self)))
  then Ret (false, Some "Transition not available from current state")
  else if negb (Nat.eqb (tr_workflow_id t) (workflow self))
  then Ret (false, Some "Transition not part of this workflow")
  else can_execute t user (content_object (instance self)).

(** [action.get(key)] *)
Definition action_get (action : list (string * Value)) (k : string) : Value :=
  match dict_get action k with Some v => v | None => VNone end.

(** [_update_field(action, record)]; the attributes of a record are
    taken to be fields that [save(update_fields=...)] accepts. *)
Definition _update_field (action : list (string * Value)) (r : record)
  : res record :=
  let field_name := action_get action "field" in
  let value := action_get action "value" in
  if truthy field_name then
    match field_name with
    | VStr f =>
        if record_hasattr r f
        then Ret {| record_pk := record_pk r;
                    record_dict := dict_set (record_dict r) f value |}
        else Ret r
    | _ => Raise TypeError
    end
  else Ret r.

(** The elements a [for] loop over a JSON value visits. *)
Definition py_iter (v : Value) : res (list Value) :=
  match v with
  | VList l => Ret l
  | VDict d => Ret (map (fun kv => VStr (fst kv)) d)
  | VStr s =>
      Ret (map (fun c => VStr (String c EmptyString)) (list_ascii_of_string s))
  | _ => Raise TypeError
  end.

Fixpoint execute_actions_loop (actions : list Value) (r : record)
  : res record :=
  match actions with
  | [] => Ret r
  | VDict action :: rest =>
      let action_type := action_get action "type" in
      if py_eq action_type (VStr "notification") then
        execute_actions_loop rest r
      else if py_eq action_type (VStr "update_field") then
        r' <- _update_field action r ;; execute_actions_loop rest r'
      else if py_eq action_type (VStr "webhook") then
        execute_actions_loop rest r
      else execute_actions_loop rest r
  | _ :: _ => Raise AttributeError
  end.

(** [_execute_actions(actions, record, user)]: the record after the
    actions ran (the notification and webhook actions do nothing). *)
Definition _execute_actions (actions : Value) (r : record) : res record :=
  l <- py_iter actions ;; execute_actions_loop l r.

(** The record object is shared with the instance and saved by
    [_update_field]: both the engine's instance and its row see it. *)
Definition persist_record (self : Engine) (r : record) : Engine :=
  let i := set_content_object (instance self) r in
  let rows :=
    map (fun row => if Nat.eqb (inst_id row) (inst_id i)
                    then set_content_object row r else row)
        (db_instances (db self)) in
  set_db (set_instance self i) (set_db_instances (db self) rows).

Definition hours (h : nat) : Z := (Z.of_nat h * 3600)%Z.

(** [_create_approval_request(transition, user, notes)] *)
Definition _create_approval_request (self : Engine) (t : WorkflowTransition)
  (user : User) (notes : string) : res (ApprovalRequest * Engine) :=
  match first_by rule_order
          (filter (fun r => Nat.eqb (rule_transition_id r) (tr_id t))
                  (db_approval_rules (db self))) with
  | None =>
      Raise (ValueError "Transition requires approval but has no approval rules")
  | Some approval_rule =>
      let deadline :=
        match escalation_hours approval_rule with
        | Some (S h) => Some (now self + hours (S h))%Z
        | _ => None
        end in
      let record_snapshot :=
        fold_left
          (fun d kv =>
             if startswith (fst kv) "_" then d
             else dict_set d (fst kv) (VStr (py_str (snd kv))))
          (record_dict (content_object (instance self))) [] in
      let request :=
        {| req_id := next_pk (db self);
           req_instance := inst_id (instance self);
           req_transition := t;
           req_approval_rule := approval_rule;
           req_status := PENDING;
           requested_by := user;
           request_notes := notes;
           req_deadline := deadline;
           record_snapshot := record_snapshot |} in
      let d := set_db_approval_requests (db self)
                 (db_approval_requests (db self) ++ [request]) in
      Ret (request, set_db self (set_next_pk d (S (next_pk d))))
  end.

(** The state change of [execute_transition] between the pre- and the
    post-actions: ledger entry, instance update, [save()]. *)
Definition apply_transition (self : Engine) (t : WorkflowTransition)
  (user : User) (notes : string) : Engine :=
  let time_in_state := (now self - state_entered_at (instance self))%Z in
  let previous_state := current_state self in
  let new_state := to_state t in
  let entry :=
    {| h_instance := inst_id (instance self);
       h_from_state := Some (state_id previous_state);
       h_to_state := state_id new_state;
       h_transition := Some (tr_id t);
       h_triggered_by := user_id user;
       h_action := tr_code t;
       h_notes := notes;
       h_time_in_state := Some time_in_state |} in
  let i := instance self in
  let terminal := is_terminal new_state in
  let i' :=
    {| inst_id := inst_id i;
       inst_workflow_id := inst_workflow_id i;
       inst_current_state := new_state;
       inst_status := if terminal then INST_COMPLETED else inst_status i;
       content_object := content_object i;
       state_entered_at := now self;
       state_deadline :=
         match timeout_hours new_state with
         | Some (S h) => Some (now self + hours (S h))%Z
         | _ => None
         end;
       completed_at := if terminal then Some (now self) else completed_at i;
       completed_by :=
         if terminal then Some (user_id user) else completed_by i;
       inst_tenant_id := inst_tenant_id i |} in
  let d := set_db_state_history (db self) (db_state_history (db self) ++ [entry]) in
  let d := set_db_instances d (save_row inst_id i' (db_instances d)) in
  set_current_state (set_db (set_instance self i') d) new_state.

(** The [AuditLog.log_action] call at the end of a transition. *)
Definition log_transition (self : Engine) (user : User)
  (previous_state new_state : WorkflowState) : Engine :=
  let entry :=
    {| audit_user := user_id user;
       audit_object_id := record_pk (content_object (instance self));
       audit_old_state := state_code previous_state;
       audit_new_state := state_code new_state;
       audit_tenant_id := inst_tenant_id (instance self) |} in
  set_db self (set_db_audit_log (db self) (db_audit_log (db self) ++ [entry])).

Definition ExecResult : Type := (bool * option string * option ApprovalRequest).

(** [_check_auto_transition(user)], with the executor it calls back
    passed as [exec]. *)
Definition check_auto_transition_with
  (exec : Engine -> WorkflowTransition -> User -> string -> bool ->
          res (ExecResult * Engine))
  (self : Engine) (user : User) : res Engine :=
  let state := current_state self in
  match auto_transition_enabled state, auto_transition_to state with
  | true, Some target =>
      match first_by tr_order
              (filter (fun t => Nat.eqb (tr_workflow_id t) (workflow self) &&
                                Nat.eqb (from_state_id t) (state_id state) &&
                                Nat.eqb (state_id (to_state t)) target &&
                                tr_is_active t)
                      (db_transitions (db self))) with
      | Some transition =>
          c <- can_execute_transition self transition user ;;
          if fst c then
            r <- exec self transition user "Auto-transition" true ;;
            Ret (snd r)
          else Ret self
      | None => Ret self
      end
  | _, _ => Ret self
  end.

(** [execute_transition(transition, user, notes, skip_approval)].
    [fuel] bounds the length of the chain of auto-transitions, for
    which the source has no bound.  The method is atomic: when it
    raises, the database is as before the call, which is why [Raise]
    carries no engine. *)
Fixpoint execute_transition (fuel : nat) (self : Engine)
  (transition : WorkflowTransition) (user : User) (notes : string)
  (skip_approval : bool) {struct fuel} : res (ExecResult * Engine) :=
  match fuel with
  | O => OutOfFuel
  | S fuel' =>
      c <- can_execute_transition self transition user ;;
      if negb (fst c) then Ret ((false, snd c, None), self)
      else if requires_approval transition && negb skip_approval then
        ra <- _create_approval_request self transition user notes ;;
        Ret ((true, Some "Approval request created", Some (fst ra)), snd ra)
      else
        let previous_state := current_state self in
        let new_state := to_state transition in
        r1 <- _execute_actions (pre_actions transition)
                (content_object (instance self)) ;;
        let self := persist_record self r1 in
        let self := apply_transition self transition user notes in
        r2 <- _execute_actions (post_actions transition)
                (content_object (instance self)) ;;
        let self := persist_record self r2 in
        let self := log_transition self user previous_state new_state in
        self <-
          (match auto_transition_enabled new_state,
                 auto_transition_to new_state with
           | true, Some _ =>
               check_auto_transition_with (execute_transition fuel') self user
           | _, _ => Ret self
           end) ;;
        Ret ((true,
              Some (String.append "Transitioned to " (state_name new_state)),
              None), self)
  end.

(** [_check_auto_transition(user)] *)
Definition _check_auto_transition (fuel : nat) (self : Engine) (user : User)
  : res Engine :=
  check_auto_transition_with (execute_transition fuel) self user.

(** [decisions.filter(decision=d).count()] over the decisions of a
    request. *)
Definition count_decisions (d : Database) (request : ApprovalRequest)
  (verdict : string) : nat :=
  List.length
    (filter (fun x => Nat.eqb (dec_request x) (req_id request) &&
                      String.eqb (dec_decision x) verdict)
            (db_approval_decisions d)).

(** [request.status = s; request.save()] *)
Definition save_request_status (self : Engine) (request : ApprovalRequest)
  (s : RequestStatus) : ApprovalRequest * Engine :=
  let request' := set_req_status request s in
  (request',
   set_db self
     (set_db_approval_requests (db self)
        (save_row req_id request' (db_approval_requests (db self))))).

(** The common tail of the SINGLE, ALL and ANY branches: mark the
    request approved and run the transition for the requester. *)
Definition approve_and_execute (fuel : nat) (self : Engine)
  (request : ApprovalRequest) (notes : string)
  : res (bool * option string * ApprovalRequest * Engine) :=
  let (request', self') := save_request_status self request APPROVED in
  r <- execute_transition fuel self' (req_transition request')
         (requested_by request') notes true ;;
  match r with
  | ((ok, msg, _), self'') => Ret (ok, msg, request', self'')
  end.

(** [ApprovalDecision.objects.create(request=..., decision=..., ...)] *)
Definition record_decision (self : Engine) (request : ApprovalRequest)
  (user : User) (decision comments : string) (signature : option pk)
  : Engine :=
  set_db self
    (set_db_approval_decisions (db self)
       (db_approval_decisions (db self) ++
        [{| dec_request := req_id request;
            dec_decision := decision;
            decided_by := user_id user;
            dec_comments := comments;
            dec_signature := signature |}])).

(** [process_approval(request, user, decision, comments, signature)]:
    the returned pair, the request object as the call leaves it, and
    the engine. *)
Definition process_approval (fuel : nat) (self : Engine)
  (request : ApprovalRequest) (user : User) (decision comments : string)
  (signature : option pk)
  : res (bool * option string * ApprovalRequest * Engine) :=
  if negb (RequestStatus_eqb (req_status request) PENDING)
  then Ret (false, Some "Approval request is not pending", request, self)
  else
    let self := record_decision self request user decision comments signature in
    let rule := req_approval_rule request in
    let approved_count := count_decisions (db self) request "approved" in
    let rejected_count := count_decisions (db self) request "rejected" in
    let waiting :=
      Ret (true, Some "Decision recorded, waiting for more approvals",
           request, self) in
    if Nat.ltb 0 rejected_count then
      let (request', self') := save_request_status self request REJECTED in
      Ret (true, Some "Approval request rejected", request', self')
    else
      match approval_type rule with
      | SINGLE =>
          if Nat.leb 1 approved_count then
            approve_and_execute fuel self request
              (String.append "Approved by " (email user))
          else waiting
      | ALL =>
          if Nat.leb (min_approvals rule) approved_count then
            approve_and_execute fuel self request
              "Approved by multiple approvers"
          else waiting
      | ANY =>
          if Nat.leb 1 approved_count then
            approve_and_execute fuel self request
              (String.append "Approved by " (email user))
          else waiting
      | _ => waiting
      end.

(** The lookup of the timeout transition in [_handle_timeout]: the
    first active transition of the workflow that leaves [state] and
    whose code contains the text [timeout]. *)
Definition find_timeout_transition (self : Engine) (state : WorkflowState)
  : option WorkflowTransition :=
  first_by tr_order
    (filter (fun t => Nat.eqb (tr_workflow_id t) (workflow self) &&
                      Nat.eqb (from_state_id t) (state_id state) &&
                      str_contains (tr_code t) "timeout" &&
                      tr_is_active t)
            (db_transitions (db self))).

(** [User.objects.filter(email='system@ebr.local').first()] *)
Definition find_system_user (d : Database) : option User :=
  find (fun u => String.eqb (email u) "system@ebr.local") (db_users d).

(** [_handle_timeout()] *)
Definition _handle_timeout (fuel : nat) (self : Engine) : res Engine :=
  let state := current_state self in
  let timeout_action := timeout_action state in
  if String.eqb timeout_action "escalate" then
    let rows :=
      map (fun r => if Nat.eqb (req_instance r) (inst_id (instance self)) &&
                       RequestStatus_eqb (req_status r) PENDING
                    then set_req_status r ESCALATED else r)
          (db_approval_requests (db self)) in
    Ret (set_db self (set_db_approval_requests (db self) rows))
  else if String.eqb timeout_action "notify" then Ret self
  else if String.eqb timeout_action "transition" then
    match find_timeout_transition self state with
    | Some timeout_transition =>
        match find_system_user (db self) with
        | Some system_user =>
            r <- execute_transition fuel self timeout_transition system_user
                   "Auto-transition due to timeout" true ;;
            Ret (snd r)
        | None => Ret self
        end
    | None => Ret self
    end
  else Ret self.



End EngineOps.

(* ------------------------------------------------------------------ *)
(** *** Activation (views/definitions.py) *)

(** The HTTP response of a view: status code and the single entry of
    its body. *)
Record Response : Type := {
  status_code : nat;
  body_key : string;
  body_text : string
}.

Definition bad_request (msg : string) : Response :=
  {| status_code := 400; body_key := "error"; body_text := msg |}.

(** [workflow.states]: the states of a definition. *)
Definition own_states (wf : WorkflowDefinition) (states : list WorkflowState)
  : list WorkflowState :=
  filter (fun s => Nat.eqb (state_workflow_id s) (wf_id wf)) states.

(** [WorkflowDefinitionViewSet.activate]: the response and the
    definition as the view leaves it.  [states] is the table of states,
    [user] the primary key of [request.user]. *)
Definition activate (wf : WorkflowDefinition) (states : list WorkflowState)
  (user : pk) : Response * WorkflowDefinition :=
  let own := own_states wf states in
  if negb (DefinitionStatus_eqb (wf_status wf) DRAFT) then
    (bad_request "Only draft workflows can be activated.", wf)
  else if negb (existsb is_initial own) then
    (bad_request "Workflow must have an initial state.", wf)
  else if negb (existsb is_terminal own) then
    (bad_request "Workflow must have at least one terminal state.", wf)
  else
    ({| status_code := 200; body_key := "message";
        body_text :=
          String.append "Workflow "
            (String.append (wf_name wf) " activated.") |},
     {| wf_id := wf_id wf; wf_name := wf_name wf; wf_status := ACTIVE;
        wf_modified_by := Some user |}).

(* ------------------------------------------------------------------ *)
(** *** Vocabulary of the statements below *)




(** The approval rule [_create_approval_request] selects. *)
Definition selected_rule (d : Database) (t : WorkflowTransition)
  : option ApprovalRule :=
  first_by rule_order
    (filter (fun r => Nat.eqb (rule_transition_id r) (tr_id t))
            (db_approval_rules d)).

End Workflow.

(* ================================================================== *)
(** ** Sample configurations *)
(* ================================================================== *)

Module Fixtures.
Import Py Conditions Workflow.

(** A state of workflow 1 with the given auto-transition target and
    timeout action; no timeout duration. *)
Definition mk_state (id : pk) (code : string) (terminal : bool)
  (auto : option pk) (action : string) : WorkflowState :=
  {| state_id := id; state_workflow_id := 1; state_code := code;
     state_name := code; is_initial := false; is_terminal := terminal;
     auto_transition_enabled := match auto with Some _ => true | None => false end;
     auto_transition_to := auto;
     timeout_hours := None; timeout_action := action |}.

(** An active transition of workflow 1 without guards or actions. *)
Definition mk_transition (id : pk) (code : string) (from : pk)
  (target : WorkflowState) (approval : bool) : WorkflowTransition :=
  {| tr_id := id; tr_workflow_id := 1; tr_code := code; tr_name := code;
     from_state_id := from; to_state := target;
     required_permission := ""; required_roles := [];
     conditions := VNone; requires_approval := approval;
     pre_actions := VList []; post_actions := VList [];
     tr_order := 0; tr_is_active := true |}.

Definition alice : User :=
  {| user_id := 1; email := "alice@ebr.local";
     user_permissions := []; user_roles := [] |}.

Definition bob : User :=
  {| user_id := 2; email := "bob@ebr.local";
     user_permissions := []; user_roles := ["qa"] |}.

Definition system_user : User :=
  {| user_id := 99; email := "system@ebr.local";
     user_permissions := []; user_roles := [] |}.

(** [str()] on the attribute values of the sample records: strings,
    [None] and booleans. *)
Definition str_of (v : Value) : string :=
  match v with
  | VStr s => s
  | VNone => "None"
  | VBool true => "True"
  | VBool false => "False"
  | _ => ""
  end.

Definition batch : record :=
  {| record_pk := "batch-1"; record_dict := [("status", VStr "draft")] |}.

(** An active instance of workflow 1 in [state], entered at time 0. *)
Definition mk_instance (state : WorkflowState) : WorkflowInstance :=
  {| inst_id := 7; inst_workflow_id := 1; inst_current_state := state;
     inst_status := INST_ACTIVE; content_object := batch;
     state_entered_at := 0; state_deadline := None;
     completed_at := None; completed_by := None; inst_tenant_id := "" |}.

Definition mk_db (transitions : list WorkflowTransition)
  (rules : list ApprovalRule) (instances : list WorkflowInstance)
  (requests : list ApprovalRequest) : Database :=
  {| db_transitions := transitions; db_approval_rules := rules;
     db_users := [alice; bob; system_user]; db_instances := instances;
     db_state_history := []; db_approval_requests := requests;
     db_approval_decisions := []; db_audit_log := []; next_pk := 100 |}.

(** The engine of [mk_instance state] at time 60. *)
Definition mk_engine (state : WorkflowState) (d : Database) : Engine :=
  new_engine (mk_instance state) d 60.



(** A chain draft -> review -> done in which review auto-transitions
    to done. *)
Definition done : WorkflowState := mk_state 6 "done" true None "".
Definition review : WorkflowState := mk_state 5 "review" false (Some 6) "".
Definition draft : WorkflowState := mk_state 4 "draft" false None "transition".
Definition submit : WorkflowTransition := mk_transition 20 "submit" 4 review false.
Definition finish : WorkflowTransition := mk_transition 21 "finish" 5 done false.
Definition chain_db : Database :=
  mk_db [submit; finish] [] [mk_instance draft] [].




(** A transition that requires approval, with one rule of the given
    policy and threshold, and a pending request for it. *)
Definition release : WorkflowTransition := mk_transition 30 "release" 4 done true.

Definition mk_rule (policy : ApprovalType) (n : nat) : ApprovalRule :=
  {| rule_id := 40; rule_transition_id := 30; approval_type := policy;
     min_approvals := n; escalation_hours := None; rule_order := 0 |}.

Definition mk_request (rule : ApprovalRule) : ApprovalRequest :=
  {| req_id := 50; req_instance := 7; req_transition := release;
     req_approval_rule := rule; req_status := PENDING;
     requested_by := alice; request_notes := ""; req_deadline := None;
     record_snapshot := [("status", VStr "draft")] |}.

Definition approval_db (rule : ApprovalRule) : Database :=
  mk_db [release] [rule] [mk_instance draft] [mk_request rule].

(** A draft definition with two initial states and one terminal
    state. *)
Definition twin_wf : WorkflowDefinition :=
  {| wf_id := 1; wf_name := "Batch release"; wf_status := DRAFT;
     wf_modified_by := None |}.

Definition mk_initial (id : pk) (code : string) : WorkflowState :=
  {| state_id := id; state_workflow_id := 1; state_code := code;
     state_name := code; is_initial := true; is_terminal := false;
     auto_transition_enabled := false; auto_transition_to := None;
     timeout_hours := None; timeout_action := "" |}.

Definition twin_states : list WorkflowState :=
  [mk_initial 8 "start_a"; mk_initial 9 "start_b"; done].

End Fixtures.

(* ================================================================== *)
(** ** Starting, listing and versioning
       (state_machine.py, models/instances.py, views/definitions.py) *)
(* ================================================================== *)

Module Operations.
Import Py Conditions Workflow.





Section Ops.

Variable getattr : Value -> string -> option Value.
Variable py_str : Value -> string.
(** The [order] column of a state. *)
Variable state_order : WorkflowState -> nat.

(** [WorkflowDefinition.get_initial_state()] *)
Definition get_initial_state (wf : WorkflowDefinition)
  (states : list WorkflowState) : option WorkflowState :=
  first_by state_order (filter is_initial (own_states wf states)).

(** [WorkflowInstance.start_workflow(workflow, record, user,
    context_data, tenant_id)] at clock reading [t]: the new instance
    and the database with the instance and its first ledger entry. *)
Definition start_instance (wf : WorkflowDefinition)
  (states : list WorkflowState) (r : record) (user : User)
  (tenant_id : string) (d : Database) (t : Z)
  : res (WorkflowInstance * Database) :=
  match get_initial_state wf states with
  | None =>
      Raise (ValueError
               (String.append "Workflow "
                  (String.append (wf_name wf) " has no initial state")))
  | Some initial_state =>
      let i :=
        {| inst_id := next_pk d;
           inst_workflow_id := wf_id wf;
           inst_current_state := initial_state;
           inst_status := INST_ACTIVE;
           content_object := r;
           state_entered_at := t;
           state_deadline := None;
           completed_at := None;
           completed_by := None;
           inst_tenant_id := tenant_id |} in
      let entry :=
        {| h_instance := inst_id i;
           h_from_state := None;
           h_to_state := state_id initial_state;
           h_transition := None;
           h_triggered_by := user_id user;
           h_action := "workflow_started";
           h_notes := "Workflow started";
           h_time_in_state := None |} in
      let d := set_db_instances d (db_instances d ++ [i]) in
      let d := set_db_state_history d (db_state_history d ++ [entry]) in
      Ret (i, set_next_pk d (S (next_pk d)))
  end.

(** [WorkflowEngine.start_workflow(workflow, record, user,
    context_data, tenant_id)]; the audit entry has no old value, written
    here as the empty text. *)
Definition start_workflow (wf : WorkflowDefinition)
  (states : list WorkflowState) (r : record) (user : User)
  (tenant_id : string) (d : Database) (t : Z) : res Engine :=
  started <- start_instance wf states r user tenant_id d t ;;
  let (i, d) := started in
  let entry :=
    {| audit_user := user_id user;
       audit_object_id := record_pk r;
       audit_old_state := "";
       audit_new_state := state_code (inst_current_state i);
       audit_tenant_id := tenant_id |} in
  Ret (new_engine i (set_db_audit_log d (db_audit_log d ++ [entry])) t).



(** The engine after one state change of [execute_transition]: pre-
    actions gave [r1], post-actions gave [r2]. *)
Definition stepped (self : Engine) (t : WorkflowTransition) (user : User)
  (notes : string) (r1 r2 : record) : Engine :=
  log_transition
    (persist_record (apply_transition (persist_record self r1) t user notes) r2)
    user (current_state self) (to_state t).

End Ops.

(** The ledger entries [entries] lead from state [from] to state
    [last], each entry starting where the one before ended. *)
Fixpoint ledger_path (from : pk) (entries : list StateHistory) (last : pk)
  : Prop :=
  match entries with
  | [] => from = last
  | h :: rest =>
      h_from_state h = Some from /\ ledger_path (h_to_state h) rest last
  end.

(** The instances [check_timed_out_states] selects at clock reading
    [t]. *)
Definition timed_out (d : Database) (t : Z) : list WorkflowInstance :=
  filter (fun i => InstanceStatus_eqb (inst_status i) INST_ACTIVE &&
                   match state_deadline i with
                   | Some dl => Z.ltb dl t
                   | None => false
                   end)
         (db_instances d).

(** [WorkflowDefinitionViewSet.deprecate] *)
Definition deprecate (wf : WorkflowDefinition) (user : pk)
  : Response * WorkflowDefinition :=
  if negb (DefinitionStatus_eqb (wf_status wf) ACTIVE) then
    (bad_request "Only active workflows can be deprecated.", wf)
  else
    ({| status_code := 200; body_key := "message";
        body_text :=
          String.append "Workflow "
            (String.append (wf_name wf) " deprecated.") |},
     {| wf_id := wf_id wf; wf_name := wf_name wf; wf_status := DEPRECATED;
        wf_modified_by := Some user |}).

(** A row of [workflow_definitions] with its version-control
    columns. *)
Record DefinitionRow : Type := {
  def_row : WorkflowDefinition;
  def_code : string;
  def_version : nat;
  def_parent_version : option pk;
  def_created_by : pk
}.

(** [WorkflowDefinition.create_new_version(user)], with the primary
    key [fresh] that the new object draws. *)
Definition create_new_version (self : DefinitionRow) (user : pk) (fresh : pk)
  : DefinitionRow :=
  {| def_row :=
       {| wf_id := fresh; wf_name := wf_name (def_row self);
          wf_status := DRAFT; wf_modified_by := None |};
     def_code := def_code self;
     def_version := def_version self + 1;
     def_parent_version := Some (wf_id (def_row self));
     def_created_by := user |}.

(** What the [new_version] view ends in. *)
Inductive Outcome (A : Type) : Type :=
| Done (a : A)
| IntegrityError
| KeyError.
Arguments Done {A} a.
Arguments IntegrityError {A}.
Arguments KeyError {A}.

(** [Model.save()] of a new definition: the column [code] is declared
    [unique=True]. *)
Definition insert_definition (table : list DefinitionRow) (row : DefinitionRow)
  : Outcome (list DefinitionRow) :=
  if existsb (fun r => String.eqb (def_code r) (def_code row)) table
  then IntegrityError
  else Done (table ++ [row]).

(** The copy of a state in [new_version]: no [auto_transition_to] is
    passed to [create]. *)
Definition copy_state (s : WorkflowState) (wf fresh : pk) : WorkflowState :=
  {| state_id := fresh; state_workflow_id := wf;
     state_code := state_code s; state_name := state_name s;
     is_initial := is_initial s; is_terminal := is_terminal s;
     auto_transition_enabled := auto_transition_enabled s;
     auto_transition_to := None;
     timeout_hours := timeout_hours s; timeout_action := timeout_action s |}.

(** The loop over [workflow.states.all()]: the copies and
    [state_mapping]. *)
Fixpoint copy_states (states : list WorkflowState) (wf fresh : pk)
  : list WorkflowState * list (pk * WorkflowState) :=
  match states with
  | [] => ([], [])
  | s :: rest =>
      let c := copy_state s wf fresh in
      let (copies, mapping) := copy_states rest wf (S fresh) in
      (c :: copies, (state_id s, c) :: mapping)
  end.

(** [state_mapping[key]]; a later assignment to a key replaces an
    earlier one. *)
Fixpoint mapping_get (mapping : list (pk * WorkflowState)) (key : pk)
  : option WorkflowState :=
  match mapping with
  | [] => None
  | (k, v) :: rest =>
      match mapping_get rest key with
      | Some w => Some w
      | None => if Nat.eqb k key then Some v else None
      end
  end.

(** The loop over [workflow.transitions.all()]. *)
Fixpoint copy_transitions (transitions : list WorkflowTransition)
  (mapping : list (pk * WorkflowState)) (wf fresh : pk)
  : Outcome (list WorkflowTransition) :=
  match transitions with
  | [] => Done []
  | t :: rest =>
      match mapping_get mapping (from_state_id t),
            mapping_get mapping (state_id (to_state t)) with
      | Some from, Some target =>
          match copy_transitions rest mapping wf (S fresh) with
          | Done copies =>
              Done ({| tr_id := fresh; tr_workflow_id := wf;
                       tr_code := tr_code t; tr_name := tr_name t;
                       from_state_id := state_id from; to_state := target;
                       required_permission := required_permission t;
                       required_roles := required_roles t;
                       conditions := conditions t;
                       requires_approval := requires_approval t;
                       pre_actions := pre_actions t;
                       post_actions := post_actions t;
                       tr_order := tr_order t;
                       tr_is_active := tr_is_active t |} :: copies)
          | IntegrityError => IntegrityError
          | KeyError => KeyError
          end
      | _, _ => KeyError
      end
  end.

(** [WorkflowDefinitionViewSet.new_version]: the new definition, its
    states and its transitions.  [definitions], [states] and
    [transitions] are the tables, [fresh] the first unused primary
    key. *)
Definition new_version (workflow : DefinitionRow)
  (definitions : list DefinitionRow) (states : list WorkflowState)
  (transitions : list WorkflowTransition) (user : pk) (fresh : pk)
  : Outcome (DefinitionRow * list WorkflowState * list WorkflowTransition) :=
  let new_workflow := create_new_version workflow user fresh in
  match insert_definition definitions new_workflow with
  | Done _ =>
      let own := own_states (def_row workflow) states in
      let (copies, mapping) := copy_states own fresh (S fresh) in
      let own_transitions :=
        filter (fun t => Nat.eqb (tr_workflow_id t) (wf_id (def_row workflow)))
               transitions in
      match copy_transitions own_transitions mapping fresh
              (S fresh + List.length own) with
      | Done new_transitions => Done (new_workflow, copies, new_transitions)
      | IntegrityError => IntegrityError
      | KeyError => KeyError
      end
  | IntegrityError => IntegrityError
  | KeyError => KeyError
  end.


(** From [e] to [e'] the ledger only grew, by entries of the engine's
    instance triggered by [user] that lead from the current state of
    [e] to the current state of [e']. *)
Definition ledger_grows (user : User) (e e' : Engine) : Prop :=
  inst_id (instance e') = inst_id (instance e) /\
  exists entries,
    db_state_history (db e') = db_state_history (db e) ++ entries /\
    ledger_path (state_id (current_state e)) entries
      (state_id (current_state e')) /\
    Forall (fun h => h_instance h = inst_id (instance e) /\
                     h_triggered_by h = user_id user) entries.


(** The engine's cached state is the state of its instance, and that
    instance is a row of the table. *)
Definition in_sync (e : Engine) : Prop :=
  inst_current_state (instance e) = current_state e /\
  In (instance e) (db_instances (db e)).

(** With [approved_before] approvals on record, one more approval
    satisfies the rule in [process_approval]. *)
Definition threshold_reached (rule : ApprovalRule) (approved_before : nat)
  : Prop :=
  approval_type rule = SINGLE \/
  approval_type rule = ANY \/
  (approval_type rule = ALL /\ min_approvals rule <= S approved_before).

(** The engine in which the decision is recorded and the request saved
    as approved. *)
Definition approved_engine (self : Engine) (request : ApprovalRequest)
  (user : User) (comments : string) (signature : option pk) : Engine :=
  snd (save_request_status
         (record_decision self request user "approved" comments signature)
         request APPROVED).

End Operations.

(* ================================================================== *)
(** ** Further sample configurations *)
(* ================================================================== *)

Module Samples.
Import Py Conditions Workflow Operations Fixtures.

(** The engine of an instance that sits in [review] while a request
    for [release], a transition out of [draft], is pending. *)
Definition moved_on_engine : Engine :=
  mk_engine review (approval_db (mk_rule ANY 1)).

(** A state whose timeout action is [escalate], with a pending request
    of its instance. *)
Definition held : WorkflowState := mk_state 4 "held" false None "escalate".
Definition held_engine : Engine :=
  mk_engine held (approval_db (mk_rule ALL 2)).

(** A stored definition, version 1 of code [BATCH]. *)
Definition batch_v1 : DefinitionRow :=
  {| def_row := {| wf_id := 1; wf_name := "Batch release";
                   wf_status := ACTIVE; wf_modified_by := None |};
     def_code := "BATCH"; def_version := 1;
     def_parent_version := None; def_created_by := 1 |}.







(** A state whose timeout action is [notify], with an overdue
    instance in it. *)
Definition waiting : WorkflowState := mk_state 4 "waiting" false None "notify".

End Samples.

(* ================================================================== *)
(** ** Properties of the condition evaluator *)
(* ================================================================== *)

Module ConditionsSpec.
Import Py Conditions.

(** *** Running out of budget *)











Section Landing.

Variable getattr : Value -> string -> option Value.



Section Loops.

Variable ev : Value -> res Value.
Variable args : list Value.
Hypothesis ev_lands : forall x, In x args -> ev x <> OutOfFuel.





End Loops.









(** *** A larger budget does not change a result *)


Section Agreement.

Variables ev ev' : Value -> res Value.
Hypothesis agree : forall x, ev x <> OutOfFuel -> ev' x = ev x.





End Agreement.








End Landing.

(** *** Arithmetic nodes *)







Section Operands.

Variable ev : Value -> res Value.







End Operands.

Section Claims.

Variable getattr : Value -> string -> option Value.




Lemma node_div fuel data rest args :
  node getattr fuel data rest "/" args =
  let arg := fun i => (e <- item args i ;; _evaluate getattr fuel e data) in
  dividend <- arg 0%nat ;;
  divisor <- arg 1%nat ;;
  if py_eq divisor (VInt 0) then Ret VNone else py_truediv dividend divisor.
Proof. reflexivity. Qed.

(** C6.  A division node whose divisor evaluates to zero ([0], [0.0] or
    [False]) returns null and raises nothing, whatever value the
    dividend evaluates to. *)
Theorem division_by_zero_is_null fuel data rest a b more x y :
  _evaluate getattr fuel a data = Ret x ->
  _evaluate getattr fuel b data = Ret y ->
  py_eq y (VInt 0) = true ->
  _evaluate getattr (S fuel)
    (VDict (("/", VList (a :: b :: more)) :: rest)) data = Ret VNone.
Proof.
  intros Ha Hb Hzero.
  change (node getattr fuel data rest "/" (a :: b :: more) = Ret VNone).
  rewrite node_div. unfold item; simpl.
  rewrite Ha; simpl. rewrite Hb; simpl. rewrite Hzero. reflexivity.
Qed.


(** *** Variable resolution *)

(** A prefix of the path that resolves to a value other than null can
    be walked first. *)
Lemma get_var_loop_app pre : forall v w,
  get_var_loop getattr pre v VNone = w -> w <> VNone ->
  forall post default,
    get_var_loop getattr (pre ++ post) v default =
    get_var_loop getattr post w default.
Proof.
  induction pre as [| part pre IH]; intros v w Hw Hnn post default; simpl in *.
  - subst; reflexivity.
  - destruct (match v with
              | VDict d =>
                  Some match dict_get d part with
                       | Some x => x
                       | None => VNone
                       end
              | _ => getattr v part
              end) as [x |]; [| congruence].
    destruct x; try congruence; eapply IH; eassumption.
Qed.

(** C10.  When the path of a [var] node reaches a dictionary in which
    the next key is present with value null (or is absent), the result
    is the default: a null field is not told apart from a missing one,
    and a default other than null replaces it. *)
Theorem var_null_yields_default fuel data rest name pre k post d default :
  truthy (VStr name) = true ->
  split name "." = pre ++ k :: post ->
  get_var_loop getattr pre (VDict data) VNone = VDict d ->
  dict_get d k = Some VNone \/ dict_get d k = None ->
  _get_var getattr (VDict data) (VStr name) default = Ret default /\
  _evaluate getattr (S fuel)
    (VDict (("var", VList [VStr name; default]) :: rest)) data = Ret default.
Proof.
  intros Hname Hsplit Hpre Hk.
  assert (H : _get_var getattr (VDict data) (VStr name) default = Ret default).
  { unfold _get_var. rewrite Hname; simpl. rewrite Hsplit.
    rewrite (get_var_loop_app pre _ _ Hpre) by discriminate.
    simpl. destruct Hk as [-> | ->]; reflexivity. }
  split; [exact H |].
  simpl. unfold eval_node; simpl. exact H.
Qed.

End Claims.

(** *** Concrete evaluations *)

(** [{"/": [10, 0]}] on the empty snapshot is null. *)
Lemma division_by_zero_is_null_witness :
  _evaluate no_attrs 1 (VInt 10) [] = Ret (VInt 10) /\
  _evaluate no_attrs 1 (VInt 0) [] = Ret (VInt 0) /\
  py_eq (VInt 0) (VInt 0) = true /\
  _evaluate no_attrs 2 (VDict [("/", VList [VInt 10; VInt 0])]) [] = Ret VNone.
Proof.
  split; [reflexivity |]. split; [reflexivity |]. split; [reflexivity |].
  apply (division_by_zero_is_null no_attrs 1 [] [] (VInt 10) (VInt 0) []
           (VInt 10) (VInt 0)); reflexivity.
Defined.


(** [{"var": ["a.b", "dflt"]}] on [{"a": {"b": null}}] is ["dflt"]. *)
Lemma var_null_yields_default_witness :
  truthy (VStr "a.b") = true /\
  split "a.b" "." = ["a"] ++ "b" :: [] /\
  get_var_loop no_attrs ["a"] (VDict [("a", VDict [("b", VNone)])]) VNone
    = VDict [("b", VNone)] /\
  (dict_get [("b", VNone)] "b" = Some VNone \/
   dict_get [("b", VNone)] "b" = None) /\
  _get_var no_attrs (VDict [("a", VDict [("b", VNone)])]) (VStr "a.b")
    (VStr "dflt") = Ret (VStr "dflt") /\
  _evaluate no_attrs 1
    (VDict [("var", VList [VStr "a.b"; VStr "dflt"])])
    [("a", VDict [("b", VNone)])] = Ret (VStr "dflt").
Proof.
  split; [reflexivity |]. split; [reflexivity |]. split; [reflexivity |].
  split; [left; reflexivity |].
  apply (var_null_yields_default no_attrs 0 [("a", VDict [("b", VNone)])] []
           "a.b" ["a"] "b" [] [("b", VNone)] (VStr "dflt"));
    [reflexivity | reflexivity | reflexivity | left; reflexivity].
Defined.


End ConditionsSpec.

(* ================================================================== *)
(** ** Properties of the workflow engine *)
(* ================================================================== *)

Module WorkflowSpec.
Import Py Conditions Workflow.

(** *** Lists and strings *)


Lemma first_by_In {A} (key : A -> nat) (rows : list A) x :
  first_by key rows = Some x -> In x rows.
Proof.
  revert x. induction rows as [| y r IH]; simpl; intros x H; [discriminate |].
  destruct (first_by key r) as [z |].
  - destruct (Nat.ltb (key z) (key y)); inversion H; subst; auto.
  - inversion H; auto.
Qed.

Lemma first_by_None {A} (key : A -> nat) (rows : list A) :
  first_by key rows = None -> rows = [].
Proof.
  destruct rows as [| y r]; simpl; [reflexivity |].
  destruct (first_by key r) as [z |]; [| discriminate].
  destruct (Nat.ltb (key z) (key y)); discriminate.
Qed.

Lemma first_by_least {A} (key : A -> nat) (rows : list A) x :
  first_by key rows = Some x -> forall y, In y rows -> key x <= key y.
Proof.
  revert x. induction rows as [| z r IH]; simpl; intros x H y Hy;
    [contradiction |].
  destruct (first_by key r) as [w |] eqn:E.
  - destruct (Nat.ltb (key w) (key z)) eqn:L; inversion H; subst.
    + apply Nat.ltb_lt in L. destruct Hy as [<- | Hy]; [lia |].
      apply (IH x eq_refl y Hy).
    + apply Nat.ltb_ge in L. destruct Hy as [<- | Hy]; [lia |].
      specialize (IH w eq_refl y Hy). lia.
  - inversion H; subst. apply first_by_None in E. subst.
    destruct Hy as [<- | []]. lia.
Qed.



Section Engine.

Variable getattr : Value -> string -> option Value.
Variable py_str : Value -> string.

(** *** The authorizer *)





Lemma execute_transition_denied fuel self t user notes skip reason :
  can_execute_transition getattr self t user = Ret (false, reason) ->
  execute_transition getattr py_str (S fuel) self t user notes skip
  = Ret ((false, reason, None), self).
Proof. intros H. simpl. rewrite H. reflexivity. Qed.


(** *** Requesting approval *)

(** C9.  With guards passing, a transition that requires approval and
    is executed without [skip_approval] creates a pending request and
    returns it with success; the instance, the engine's current state,
    the instance rows and the ledger are as before.  Without an
    approval rule the call raises [ValueError]. *)
Theorem approval_request_leaves_instance fuel self t user notes reason :
  can_execute_transition getattr self t user = Ret (true, reason) ->
  requires_approval t = true ->
  (forall rule, selected_rule (db self) t = Some rule ->
     exists request self',
       execute_transition getattr py_str (S fuel) self t user notes false
       = Ret ((true, Some "Approval request created", Some request), self') /\
       req_status request = PENDING /\
       req_transition request = t /\
       req_approval_rule request = rule /\
       requested_by request = user /\
       req_instance request = inst_id (instance self) /\
       instance self' = instance self /\
       current_state self' = current_state self /\
       db_instances (db self') = db_instances (db self) /\
       db_state_history (db self') = db_state_history (db self) /\
       db_approval_requests (db self')
       = db_approval_requests (db self) ++ [request]) /\
  (selected_rule (db self) t = None ->
     execute_transition getattr py_str (S fuel) self t user notes false
     = Raise (ValueError
                "Transition requires approval but has no approval rules")).
Proof.
  intros Hguard Happroval. split.
  - intros rule Hrule. unfold selected_rule in Hrule.
    eexists. eexists. split.
    + simpl. rewrite Hguard; simpl. rewrite Happroval; simpl.
      unfold _create_approval_request. rewrite Hrule. simpl. reflexivity.
    + simpl. repeat split; reflexivity.
  - intros Hrule. unfold selected_rule in Hrule.
    simpl. rewrite Hguard; simpl. rewrite Happroval; simpl.
    unfold _create_approval_request. rewrite Hrule. reflexivity.
Qed.

(** *** Deciding *)

Lemma count_decisions_recorded d request verdict row :
  dec_request row = req_id request ->
  count_decisions
    (set_db_approval_decisions d (db_approval_decisions d ++ [row]))
    request verdict
  = count_decisions d request verdict
    + (if String.eqb (dec_decision row) verdict then 1 else 0).
Proof.
  intros Hrow. unfold count_decisions; simpl.
  rewrite filter_app, length_app. simpl.
  rewrite Hrow, Nat.eqb_refl; simpl.
  destruct (String.eqb (dec_decision row) verdict); reflexivity.
Qed.

Lemma save_row_In {A} (key : A -> pk) (x : A) rows :
  In x (save_row key x rows).
Proof.
  induction rows as [| y r IH]; simpl; [auto |].
  destruct (Nat.eqb (key y) (key x)); simpl; auto.
Qed.

(** C7.  On a pending request a [rejected] decision sets the status to
    rejected under every policy and whatever was decided before; the
    executor is not run (the result needs no budget at all) and the
    instance, its rows and the ledger are as before.  A request that
    is not pending refuses every decision and nothing changes. *)
Theorem rejection_vetoes fuel self request user comments signature :
  (req_status request = PENDING ->
     exists self',
       process_approval getattr py_str fuel self request user
         "rejected" comments signature
       = Ret (true, Some "Approval request rejected",
              set_req_status request REJECTED, self') /\
       In (set_req_status request REJECTED) (db_approval_requests (db self')) /\
       instance self' = instance self /\
       current_state self' = current_state self /\
       db_instances (db self') = db_instances (db self) /\
       db_state_history (db self') = db_state_history (db self)) /\
  (req_status request <> PENDING ->
     forall decision,
       process_approval getattr py_str fuel self request user
         decision comments signature
       = Ret (false, Some "Approval request is not pending", request, self)).
Proof.
  split.
  - intros Hpending. eexists. split.
    + unfold Workflow.process_approval. rewrite Hpending; simpl negb.
      cbv iota zeta. unfold record_decision. cbn [db set_db].
      rewrite (count_decisions_recorded (db self) request "rejected")
        by reflexivity.
      cbn [dec_decision String.eqb Ascii.eqb Bool.eqb].
      replace (Nat.ltb 0 (count_decisions (db self) request "rejected" + 1))
        with true by (symmetry; apply Nat.ltb_lt; lia).
      simpl. reflexivity.
    + simpl. repeat split. apply save_row_In.
  - intros Hnot decision. unfold Workflow.process_approval.
    destruct (req_status request); try congruence; reflexivity.
Qed.

(** The counts [process_approval] takes after an [approved] decision
    is recorded. *)
Lemma counts_after_approval self request user comments signature :
  let self' := record_decision self request user "approved" comments
                 signature in
  count_decisions (db self') request "approved"
  = S (count_decisions (db self) request "approved") /\
  count_decisions (db self') request "rejected"
  = count_decisions (db self) request "rejected".
Proof.
  unfold record_decision. cbn [db set_db]. split.
  - rewrite count_decisions_recorded by reflexivity. simpl. lia.
  - rewrite count_decisions_recorded by reflexivity. simpl. lia.
Qed.

(** Under SINGLE and ANY the first approval of a request without
    rejections marks it approved and runs the executor. *)
Lemma single_any_first_approval fuel self request user comments signature :
  req_status request = PENDING ->
  count_decisions (db self) request "rejected" = 0 ->
  approval_type (req_approval_rule request) = SINGLE \/
  approval_type (req_approval_rule request) = ANY ->
  process_approval getattr py_str fuel self request user "approved"
    comments signature
  = approve_and_execute getattr py_str fuel
      (record_decision self request user "approved" comments signature)
      request (String.append "Approved by " (email user)).
Proof.
  intros Hpending Hrej Htype. unfold Workflow.process_approval.
  rewrite Hpending; simpl negb. cbv iota zeta.
  destruct (counts_after_approval self request user comments signature)
    as [Ha Hr].
  rewrite Ha, Hr, Hrej. simpl.
  destruct Htype as [-> | ->]; reflexivity.
Qed.

(** Under ALL with [min_approvals = N] the request stays pending below
    the Nth approval and is approved, and the executor run, at the
    Nth. *)
Lemma all_threshold_approval fuel self request user comments signature :
  req_status request = PENDING ->
  count_decisions (db self) request "rejected" = 0 ->
  approval_type (req_approval_rule request) = ALL ->
  let k := count_decisions (db self) request "approved" in
  let self' := record_decision self request user "approved" comments
                 signature in
  (S k < min_approvals (req_approval_rule request) ->
     process_approval getattr py_str fuel self request user "approved"
       comments signature
     = Ret (true, Some "Decision recorded, waiting for more approvals",
            request, self')) /\
  (min_approvals (req_approval_rule request) <= S k ->
     process_approval getattr py_str fuel self request user "approved"
       comments signature
     = approve_and_execute getattr py_str fuel self' request
         "Approved by multiple approvers").
Proof.
  intros Hpending Hrej Htype. cbv zeta.
  destruct (counts_after_approval self request user comments signature)
    as [Ha Hr].
  split; intros Hk; unfold Workflow.process_approval;
    rewrite Hpending; simpl negb; cbv iota zeta;
    rewrite Ha, Hr, Hrej, Htype; simpl Nat.ltb; cbv iota.
  - replace (Nat.leb _ _) with false
      by (symmetry; apply Nat.leb_gt; lia).
    reflexivity.
  - replace (Nat.leb _ _) with true
      by (symmetry; apply Nat.leb_le; lia).
    reflexivity.
Qed.

(** [approve_and_execute] saves the request as approved and calls the
    executor on the transition of the request, for the requester, with
    approval skipped. *)
Lemma approve_and_execute_runs fuel self request notes :
  approve_and_execute getattr py_str fuel self request notes
  = (r <- execute_transition getattr py_str fuel
            (snd (save_request_status self request APPROVED))
            (req_transition request) (requested_by request) notes true ;;
     Ret (fst (fst (fst r)), snd (fst (fst r)),
          set_req_status request APPROVED, snd r)).
Proof.
  unfold approve_and_execute. simpl.
  destruct (execute_transition _ _ _ _ _ _ _ _) as [[[[ok msg] rq] e] | |];
    reflexivity.
Qed.

(** C1 (the defect).  Under MAJORITY -- and likewise SEQUENTIAL --
    [process_approval] has no branch: an approval of a pending request
    without rejections is recorded and the request stays pending,
    however many approvals there are and whatever [min_approvals] is.
    The executor is not run. *)
Theorem majority_never_approves fuel self request user comments signature :
  req_status request = PENDING ->
  count_decisions (db self) request "rejected" = 0 ->
  approval_type (req_approval_rule request) = MAJORITY \/
  approval_type (req_approval_rule request) = SEQUENTIAL ->
  process_approval getattr py_str fuel self request user "approved"
    comments signature
  = Ret (true, Some "Decision recorded, waiting for more approvals",
         request,
         record_decision self request user "approved" comments signature).
Proof.
  intros Hpending Hrej Htype. unfold Workflow.process_approval.
  rewrite Hpending; simpl negb. cbv iota zeta.
  destruct (counts_after_approval self request user comments signature)
    as [Ha Hr].
  rewrite Hr, Hrej. simpl.
  destruct Htype as [-> | ->]; reflexivity.
Qed.

(** *** Auto-transition chains *)







(** *** Timeouts *)


End Engine.

(** *** Activation *)

(** C2 (as amended).  Activation succeeds, and sets the status to
    active, exactly when the definition is a draft with at least one
    initial and at least one terminal state; otherwise the response is
    400 and the definition is unchanged.  The number of initial states
    is not bounded above. *)
Theorem activate_needs_initial_and_terminal wf states user :
  let ready :=
    wf_status wf = DRAFT /\
    (exists s, In s (own_states wf states) /\ is_initial s = true) /\
    (exists s, In s (own_states wf states) /\ is_terminal s = true) in
  (ready ->
     status_code (fst (activate wf states user)) = 200 /\
     wf_status (snd (activate wf states user)) = ACTIVE) /\
  (~ ready ->
     status_code (fst (activate wf states user)) = 400 /\
     snd (activate wf states user) = wf).
Proof.
  cbv zeta. unfold activate.
  destruct (existsb is_initial (own_states wf states)) eqn:Hi;
  destruct (existsb is_terminal (own_states wf states)) eqn:Ht;
  destruct (wf_status wf) eqn:Hs; simpl;
    (split; [intros [H1 [H2 H3]] | intros Hn]); try discriminate;
    try (split; reflexivity);
    try (exfalso; apply Hn; split; [reflexivity |];
         split; apply existsb_exists; assumption);
    try (apply existsb_exists in H2; congruence);
    try (apply existsb_exists in H3; congruence).
Qed.

(** *** The ping-pong cycle *)

Import Fixtures.



(** *** Concrete runs *)

(** C2 (counterexample).  A draft definition with two initial states
    and a terminal state is activated. *)
Lemma activate_two_initial_counterexample :
  List.length (filter is_initial (own_states twin_wf twin_states)) = 2 /\
  status_code (fst (activate twin_wf twin_states 1)) = 200 /\
  wf_status (snd (activate twin_wf twin_states 1)) = ACTIVE.
Proof. split; [| split]; reflexivity. Qed.

Lemma activate_needs_initial_and_terminal_witness :
  (wf_status twin_wf = DRAFT /\
   (exists s, In s (own_states twin_wf twin_states) /\ is_initial s = true) /\
   (exists s, In s (own_states twin_wf twin_states) /\ is_terminal s = true)) /\
  status_code (fst (activate twin_wf twin_states 1)) = 200 /\
  wf_status (snd (activate twin_wf twin_states 1)) = ACTIVE.
Proof.
  assert (Hready :
    wf_status twin_wf = DRAFT /\
    (exists s, In s (own_states twin_wf twin_states) /\ is_initial s = true) /\
    (exists s, In s (own_states twin_wf twin_states) /\ is_terminal s = true)).
  { split; [reflexivity |]. split.
    - exists (mk_initial 8 "start_a"). split; [left; reflexivity | reflexivity].
    - exists done. split; [right; right; left; reflexivity | reflexivity]. }
  split; [exact Hready |].
  exact (proj1 (activate_needs_initial_and_terminal twin_wf twin_states 1)
           Hready).
Defined.



(** C1 (failing input).  Under a majority rule with
    [min_approvals = 1] the first approval leaves the request pending
    and the instance in [draft]. *)
Lemma majority_never_approves_witness :
  req_status (mk_request (mk_rule MAJORITY 1)) = PENDING /\
  count_decisions (db (mk_engine draft (approval_db (mk_rule MAJORITY 1))))
    (mk_request (mk_rule MAJORITY 1)) "rejected" = 0 /\
  process_approval no_attrs str_of 5
    (mk_engine draft (approval_db (mk_rule MAJORITY 1)))
    (mk_request (mk_rule MAJORITY 1)) bob "approved" "" None
  = Ret (true, Some "Decision recorded, waiting for more approvals",
         mk_request (mk_rule MAJORITY 1),
         record_decision (mk_engine draft (approval_db (mk_rule MAJORITY 1)))
           (mk_request (mk_rule MAJORITY 1)) bob "approved" "" None).
Proof.
  split; [reflexivity |]. split; [reflexivity |].
  apply (majority_never_approves no_attrs str_of 5
           (mk_engine draft (approval_db (mk_rule MAJORITY 1)))
           (mk_request (mk_rule MAJORITY 1)) bob "" None);
    [reflexivity | reflexivity | left; reflexivity].
Defined.

(** The same decision under ALL with [min_approvals = 1] approves the
    request and moves the instance to [done]. *)
Example all_rule_first_approval :
  exists e,
    process_approval no_attrs str_of 5
      (mk_engine draft (approval_db (mk_rule ALL 1)))
      (mk_request (mk_rule ALL 1)) bob "approved" "" None
    = Ret (true, Some "Transitioned to done",
           set_req_status (mk_request (mk_rule ALL 1)) APPROVED, e) /\
    current_state e = done.
Proof. eexists. split; reflexivity. Qed.

Lemma rejection_vetoes_witness :
  req_status (mk_request (mk_rule ANY 1)) = PENDING /\
  exists e,
    process_approval no_attrs str_of 0
      (mk_engine draft (approval_db (mk_rule ANY 1)))
      (mk_request (mk_rule ANY 1)) bob "rejected" "" None
    = Ret (true, Some "Approval request rejected",
           set_req_status (mk_request (mk_rule ANY 1)) REJECTED, e) /\
    current_state e = draft.
Proof.
  split; [reflexivity |].
  destruct (proj1 (rejection_vetoes no_attrs str_of 0
                     (mk_engine draft (approval_db (mk_rule ANY 1)))
                     (mk_request (mk_rule ANY 1)) bob "" None) eq_refl)
    as [e [Hrun [_ [_ [Hcur _]]]]].
  exists e. split; [exact Hrun | exact Hcur].
Defined.


Lemma approval_request_leaves_instance_witness :
  can_execute_transition no_attrs
    (mk_engine draft (approval_db (mk_rule SINGLE 1))) release alice
  = Ret (true, None) /\
  requires_approval release = true /\
  selected_rule (db (mk_engine draft (approval_db (mk_rule SINGLE 1)))) release
  = Some (mk_rule SINGLE 1) /\
  exists request e,
    execute_transition no_attrs str_of 1
      (mk_engine draft (approval_db (mk_rule SINGLE 1))) release alice
      "please" false
    = Ret ((true, Some "Approval request created", Some request), e) /\
    req_status request = PENDING /\
    current_state e = draft /\
    db_state_history (db e) = [].
Proof.
  split; [reflexivity |]. split; [reflexivity |]. split; [reflexivity |].
  destruct (proj1 (approval_request_leaves_instance no_attrs str_of 0
                     (mk_engine draft (approval_db (mk_rule SINGLE 1)))
                     release alice "please" None eq_refl eq_refl)
                  (mk_rule SINGLE 1) eq_refl)
    as [request [e [Hrun [Hst [_ [_ [_ [_ [_ [Hcur [_ [Hh _]]]]]]]]]]]].
  exists request, e. repeat split; assumption.
Defined.


End WorkflowSpec.

(* ================================================================== *)
(** ** Further properties of the engine *)
(* ================================================================== *)

Module EngineFacts.
Import Py Conditions Workflow Operations.

Section Steps.

Variable getattr : Value -> string -> option Value.
Variable py_str : Value -> string.

(** One unfolding of the executor past its guards. *)
Lemma execute_transition_passed fuel self t user notes skip reason r1 r2 :
  can_execute_transition getattr self t user = Ret (true, reason) ->
  requires_approval t && negb skip = false ->
  _execute_actions (pre_actions t) (content_object (instance self)) = Ret r1 ->
  _execute_actions (post_actions t) r1 = Ret r2 ->
  execute_transition getattr py_str (S fuel) self t user notes skip
  = (self' <-
       match auto_transition_enabled (to_state t),
             auto_transition_to (to_state t) with
       | true, Some _ =>
           check_auto_transition_with getattr
             (execute_transition getattr py_str fuel)
             (stepped self t user notes r1 r2) user
       | _, _ => Ret (stepped self t user notes r1 r2)
       end ;;
     Ret ((true,
           Some (String.append "Transitioned to " (state_name (to_state t))),
           None), self')).
Proof.
  intros Hguard Happroval Hpre Hpost.
  cbn [Workflow.execute_transition].
  rewrite Hguard. cbn [bind fst snd negb]. rewrite Happroval.
  rewrite Hpre. cbn [bind].
  replace (content_object
             (instance (apply_transition (persist_record self r1) t user notes)))
    with r1 by reflexivity.
  rewrite Hpost. cbn [bind]. reflexivity.
Qed.

(** Without an auto-transition out of the entered state the executor
    makes exactly one state change. *)
Lemma execute_transition_once fuel self t user notes skip reason r1 r2 :
  can_execute_transition getattr self t user = Ret (true, reason) ->
  requires_approval t && negb skip = false ->
  _execute_actions (pre_actions t) (content_object (instance self)) = Ret r1 ->
  _execute_actions (post_actions t) r1 = Ret r2 ->
  auto_transition_enabled (to_state t) = false \/
  auto_transition_to (to_state t) = None ->
  execute_transition getattr py_str (S fuel) self t user notes skip
  = Ret ((true,
          Some (String.append "Transitioned to " (state_name (to_state t))),
          None), stepped self t user notes r1 r2).
Proof.
  intros Hguard Happroval Hpre Hpost Hauto.
  rewrite (execute_transition_passed fuel self t user notes skip reason r1 r2)
    by assumption.
  destruct Hauto as [-> | ->]; [reflexivity |].
  destruct (auto_transition_enabled (to_state t)); reflexivity.
Qed.

(** [_check_auto_transition] either leaves the engine alone or returns
    what the executor returned. *)
Lemma check_auto_transition_cases exec self user self' :
  check_auto_transition_with getattr exec self user = Ret self' ->
  self' = self \/
  exists t out,
    In t (db_transitions (db self)) /\
    exec self t user "Auto-transition" true = Ret (out, self').
Proof.
  unfold check_auto_transition_with.
  destruct (auto_transition_enabled (current_state self));
    [| intros H; inversion H; auto].
  destruct (auto_transition_to (current_state self)) as [target |];
    [| intros H; inversion H; auto].
  destruct (first_by _ _) as [t |] eqn:Hfirst; [| intros H; inversion H; auto].
  apply WorkflowSpec.first_by_In, filter_In in Hfirst.
  destruct (can_execute_transition getattr self t user) as [c | |];
    simpl; try discriminate.
  destruct (fst c); [| intros H; inversion H; auto].
  destruct (exec self t user "Auto-transition" true) as [[out e] | |] eqn:He;
    simpl; try discriminate.
  intros H; inversion H; subst. right. exists t, out. tauto.
Qed.

(** A relation between the engine before and after that holds across
    the creation of an approval request and across every single state
    change holds across the executor. *)
Section Relation.

Variable user : User.
Variable R : Engine -> Engine -> Prop.
Hypothesis R_refl : forall e, R e e.
Hypothesis R_trans : forall a b c, R a b -> R b c -> R a c.
Hypothesis R_request : forall e t notes request e',
  _create_approval_request py_str e t user notes = Ret (request, e') ->
  R e e'.
Hypothesis R_step : forall e t notes r1 r2,
  _execute_actions (pre_actions t) (content_object (instance e)) = Ret r1 ->
  _execute_actions (post_actions t) r1 = Ret r2 ->
  R e (stepped e t user notes r1 r2).

Lemma execute_transition_keeps : forall fuel self t notes skip out self',
  execute_transition getattr py_str fuel self t user notes skip
  = Ret (out, self') ->
  R self self'.
Proof.
  induction fuel as [| fuel IH]; intros self t notes skip out self' Hrun;
    [discriminate |].
  destruct (can_execute_transition getattr self t user) as [[ok reason] | |]
    eqn:Hguard;
    try (cbn [Workflow.execute_transition] in Hrun; rewrite Hguard in Hrun;
         discriminate).
  destruct ok.
  2:{ cbn [Workflow.execute_transition] in Hrun. rewrite Hguard in Hrun.
      simpl in Hrun. inversion Hrun; subst. apply R_refl. }
  destruct (requires_approval t && negb skip) eqn:Happroval.
  { cbn [Workflow.execute_transition] in Hrun. rewrite Hguard in Hrun.
    cbn [bind fst snd negb] in Hrun. rewrite Happroval in Hrun.
    destruct (_create_approval_request py_str self t user notes)
      as [[request e'] | |] eqn:Hreq; simpl in Hrun; try discriminate.
    inversion Hrun; subst. eapply R_request; eassumption. }
  destruct (_execute_actions (pre_actions t) (content_object (instance self)))
    as [r1 | |] eqn:Hpre.
  2,3: cbn [Workflow.execute_transition] in Hrun; rewrite Hguard in Hrun;
       cbn [bind fst snd negb] in Hrun; rewrite Happroval, Hpre in Hrun;
       discriminate.
  destruct (_execute_actions (post_actions t) r1) as [r2 | |] eqn:Hpost.
  2,3: cbn [Workflow.execute_transition] in Hrun; rewrite Hguard in Hrun;
       cbn [bind fst snd negb] in Hrun; rewrite Happroval, Hpre in Hrun;
       cbn [bind] in Hrun;
       replace (content_object
                  (instance
                     (apply_transition (persist_record self r1) t user notes)))
         with r1 in Hrun by reflexivity;
       rewrite Hpost in Hrun; discriminate.
  rewrite (execute_transition_passed fuel self t user notes skip reason r1 r2)
    in Hrun by assumption.
  pose proof (R_step self t notes r1 r2 Hpre Hpost) as Hstep.
  destruct (auto_transition_enabled (to_state t)).
  2:{ simpl in Hrun. inversion Hrun; subst. exact Hstep. }
  destruct (auto_transition_to (to_state t)).
  2:{ simpl in Hrun. inversion Hrun; subst. exact Hstep. }
  destruct (check_auto_transition_with getattr
              (execute_transition getattr py_str fuel)
              (stepped self t user notes r1 r2) user) as [e2 | |] eqn:Hauto;
    simpl in Hrun; try discriminate.
  inversion Hrun; subst.
  apply check_auto_transition_cases in Hauto.
  destruct Hauto as [-> | [t' [out' [_ Hexec]]]]; [exact Hstep |].
  eapply R_trans; [exact Hstep | eapply IH; exact Hexec].
Qed.

End Relation.

(** *** Actions keep the shape of the record *)







(** *** What one execution changes *)

Lemma ledger_path_app a es : forall b es' c,
  ledger_path a es b -> ledger_path b es' c -> ledger_path a (es ++ es') c.
Proof.
  revert a. induction es as [| h r IH]; intros a b es' c; simpl.
  - intros ->. auto.
  - intros [H1 H2] H3. split; [exact H1 | eapply IH; eassumption].
Qed.

Lemma ledger_grows_refl user e : ledger_grows user e e.
Proof.
  split; [reflexivity |]. exists []. rewrite app_nil_r.
  repeat split. constructor.
Qed.

Lemma ledger_grows_trans user a b c :
  ledger_grows user a b -> ledger_grows user b c -> ledger_grows user a c.
Proof.
  intros [Hid1 [es1 [H1 [P1 F1]]]] [Hid2 [es2 [H2 [P2 F2]]]].
  split; [congruence |]. exists (es1 ++ es2). split; [| split].
  - rewrite H2, H1, app_assoc. reflexivity.
  - eapply ledger_path_app; eassumption.
  - apply Forall_app. split; [exact F1 |].
    rewrite Hid1 in F2. exact F2.
Qed.

Lemma create_approval_request_inv self t user notes request e' :
  _create_approval_request py_str self t user notes = Ret (request, e') ->
  e' = set_db self
         (set_next_pk
            (set_db_approval_requests (db self)
               (db_approval_requests (db self) ++ [request]))
            (S (next_pk (db self)))).
Proof.
  unfold _create_approval_request.
  destruct (first_by _ _); [| discriminate].
  intros H. inversion H; subst. reflexivity.
Qed.



Lemma stepped_row_saved e t user notes r1 r2 :
  In (instance (stepped e t user notes r1 r2))
     (db_instances (db (stepped e t user notes r1 r2))).
Proof.
  unfold stepped, log_transition, persist_record.
  cbn [instance db db_instances set_db set_instance set_db_instances
       set_db_audit_log].
  apply in_map_iff. eexists.
  split; [| unfold apply_transition;
            cbn [instance db db_instances set_db set_instance
                 set_current_state set_db_instances set_db_state_history];
            apply WorkflowSpec.save_row_In].
  simpl. rewrite Nat.eqb_refl. reflexivity.
Qed.

(** X1.  A transition whose guards pass, that needs no approval (or
    has it skipped), whose actions run and whose target has no
    auto-transition, changes the state exactly once: the instance and
    the engine are in the target state, entered now; the deadline is
    set from the target's timeout and cleared when that is absent or
    zero; the status becomes completed in a terminal state and is left
    alone otherwise; one ledger entry is appended; the instance row is
    saved. *)
Theorem transition_effects fuel self t user notes skip reason r1 r2 :
  can_execute_transition getattr self t user = Ret (true, reason) ->
  requires_approval t && negb skip = false ->
  _execute_actions (pre_actions t) (content_object (instance self)) = Ret r1 ->
  _execute_actions (post_actions t) r1 = Ret r2 ->
  auto_transition_enabled (to_state t) = false \/
  auto_transition_to (to_state t) = None ->
  exists self',
    execute_transition getattr py_str (S fuel) self t user notes skip
    = Ret ((true,
            Some (String.append "Transitioned to " (state_name (to_state t))),
            None), self') /\
    current_state self' = to_state t /\
    inst_current_state (instance self') = to_state t /\
    state_entered_at (instance self') = now self /\
    state_deadline (instance self')
    = match timeout_hours (to_state t) with
      | Some (S h) => Some (now self + Z.of_nat (S h) * 3600)%Z
      | _ => None
      end /\
    inst_status (instance self')
    = (if is_terminal (to_state t) then INST_COMPLETED
       else inst_status (instance self)) /\
    content_object (instance self') = r2 /\
    db_state_history (db self')
    = db_state_history (db self) ++
      [{| h_instance := inst_id (instance self);
          h_from_state := Some (state_id (current_state self));
          h_to_state := state_id (to_state t);
          h_transition := Some (tr_id t);
          h_triggered_by := user_id user;
          h_action := tr_code t;
          h_notes := notes;
          h_time_in_state :=
            Some (now self - state_entered_at (instance self))%Z |}] /\
    In (instance self') (db_instances (db self')).
Proof.
  intros Hguard Happroval Hpre Hpost Hauto.
  exists (stepped self t user notes r1 r2). split.
  - eapply execute_transition_once; eassumption.
  - repeat split. apply stepped_row_saved.
Qed.

(** X2.  Whatever the executor returns, the ledger has only grown: the
    entries it had are still its first entries, and the new ones
    belong to the engine's instance, name the acting user and lead,
    each from the target of the one before, from the state the engine
    was in to the state it is in. *)
Theorem execution_ledger_path fuel self t user notes skip out self' :
  execute_transition getattr py_str fuel self t user notes skip
  = Ret (out, self') ->
  ledger_grows user self self'.
Proof.
  apply (execute_transition_keeps user (ledger_grows user)).
  - apply ledger_grows_refl.
  - apply ledger_grows_trans.
  - intros e t0 notes0 request e' H.
    apply create_approval_request_inv in H. subst.
    split; [reflexivity |]. exists []. simpl. rewrite app_nil_r.
    repeat split. constructor.
  - intros e t0 notes0 r1 r2 _ _. split; [reflexivity |].
    eexists. split; [reflexivity |]. simpl. repeat split.
    constructor; [split; reflexivity | constructor].
Qed.


(** X4.  An engine whose cached state is that of its instance, and
    whose instance is a row of the table, is so again after every
    call of the executor: each state change is saved. *)
Theorem execution_stays_in_sync fuel self t user notes skip out self' :
  in_sync self ->
  execute_transition getattr py_str fuel self t user notes skip
  = Ret (out, self') ->
  in_sync self'.
Proof.
  intros Hsync Hrun.
  refine (execute_transition_keeps user (fun e e' => in_sync e -> in_sync e')
            _ _ _ _ fuel self t notes skip out self' Hrun Hsync).
  - auto.
  - auto.
  - intros e t0 notes0 request e' H.
    apply create_approval_request_inv in H. subst. auto.
  - intros e t0 notes0 r1 r2 _ _ _. split; [reflexivity |].
    apply stepped_row_saved.
Qed.

(** *** Approval and execution together *)

Lemma threshold_runs_executor fuel self request user comments signature :
  req_status request = PENDING ->
  count_decisions (db self) request "rejected" = 0 ->
  threshold_reached (req_approval_rule request)
    (count_decisions (db self) request "approved") ->
  exists notes,
    process_approval getattr py_str fuel self request user "approved"
      comments signature
    = (r <- execute_transition getattr py_str fuel
              (approved_engine self request user comments signature)
              (req_transition request) (requested_by request) notes true ;;
       Ret (fst (fst (fst r)), snd (fst (fst r)),
            set_req_status request APPROVED, snd r)).
Proof.
  intros Hpending Hrej [Ht | [Ht | [Ht Hn]]].
  - eexists. rewrite WorkflowSpec.single_any_first_approval by auto.
    apply WorkflowSpec.approve_and_execute_runs.
  - eexists. rewrite WorkflowSpec.single_any_first_approval by auto.
    apply WorkflowSpec.approve_and_execute_runs.
  - eexists.
    rewrite (proj2 (WorkflowSpec.all_threshold_approval getattr py_str fuel
                      self request user comments signature Hpending Hrej Ht))
      by exact Hn.
    apply WorkflowSpec.approve_and_execute_runs.
Qed.

(** X5.  An approval that satisfies the rule of a pending request
    without rejections runs the requested transition at once, although
    it requires approval: the guards are those of the requester at the
    time of the decision, the ledger names the requester, the request
    is saved as approved and the instance is in the target state. *)
Theorem approval_completes_transition
  fuel self request user comments signature reason r1 r2 :
  req_status request = PENDING ->
  count_decisions (db self) request "rejected" = 0 ->
  threshold_reached (req_approval_rule request)
    (count_decisions (db self) request "approved") ->
  can_execute_transition getattr self (req_transition request)
    (requested_by request) = Ret (true, reason) ->
  _execute_actions (pre_actions (req_transition request))
    (content_object (instance self)) = Ret r1 ->
  _execute_actions (post_actions (req_transition request)) r1 = Ret r2 ->
  auto_transition_enabled (to_state (req_transition request)) = false \/
  auto_transition_to (to_state (req_transition request)) = None ->
  exists self' entry,
    process_approval getattr py_str (S fuel) self request user "approved"
      comments signature
    = Ret (true,
           Some (String.append "Transitioned to "
                   (state_name (to_state (req_transition request)))),
           set_req_status request APPROVED, self') /\
    current_state self' = to_state (req_transition request) /\
    inst_current_state (instance self') = to_state (req_transition request) /\
    In (set_req_status request APPROVED) (db_approval_requests (db self')) /\
    db_state_history (db self') = db_state_history (db self) ++ [entry] /\
    h_triggered_by entry = user_id (requested_by request) /\
    h_transition entry = Some (tr_id (req_transition request)).
Proof.
  intros Hpending Hrej Hreached Hguard Hpre Hpost Hauto.
  destruct (threshold_runs_executor (S fuel) self request user comments
              signature Hpending Hrej Hreached) as [notes Hrun].
  eexists. eexists. split.
  - rewrite Hrun.
    rewrite (execute_transition_once fuel
               (approved_engine self request user comments signature)
               (req_transition request) (requested_by request) notes true
               reason r1 r2);
      [reflexivity | exact Hguard | apply andb_false_r | exact Hpre
      | exact Hpost | exact Hauto].
  - simpl. repeat split. apply WorkflowSpec.save_row_In.
Qed.

(** X6.  When the approval satisfies the rule but the guards of the
    transition no longer pass for the requester, the request is saved
    as approved all the same and the failure of the guard is returned:
    the instance and the ledger are as before, and the request, no
    longer pending, refuses every later decision. *)
Theorem approval_spent_on_denied_transition
  fuel self request user comments signature reason :
  req_status request = PENDING ->
  count_decisions (db self) request "rejected" = 0 ->
  threshold_reached (req_approval_rule request)
    (count_decisions (db self) request "approved") ->
  can_execute_transition getattr self (req_transition request)
    (requested_by request) = Ret (false, reason) ->
  let self' := approved_engine self request user comments signature in
  process_approval getattr py_str (S fuel) self request user "approved"
    comments signature
  = Ret (false, reason, set_req_status request APPROVED, self') /\
  In (set_req_status request APPROVED) (db_approval_requests (db self')) /\
  instance self' = instance self /\
  current_state self' = current_state self /\
  db_state_history (db self') = db_state_history (db self) /\
  forall fuel' user' decision comments' signature',
    process_approval getattr py_str fuel' self'
      (set_req_status request APPROVED) user' decision comments' signature'
    = Ret (false, Some "Approval request is not pending",
           set_req_status request APPROVED, self').
Proof.
  intros Hpending Hrej Hreached Hguard. cbv zeta.
  destruct (threshold_runs_executor (S fuel) self request user comments
              signature Hpending Hrej Hreached) as [notes Hrun].
  split; [| split; [| split; [| split; [| split]]]]; try reflexivity.
  - rewrite Hrun.
    rewrite (WorkflowSpec.execute_transition_denied getattr py_str fuel
               (approved_engine self request user comments signature)
               (req_transition request) (requested_by request) notes true
               reason Hguard).
    reflexivity.
  - simpl. apply WorkflowSpec.save_row_In.
Qed.

(** *** Escalation *)

(** X7.  When a state with timeout action [escalate] times out, the
    pending requests of the instance become escalated and no request
    of the instance is pending afterwards; the requests of other
    instances, the instance itself and the ledger are untouched.  An
    escalated request refuses every decision: nothing in the engine
    makes it pending again. *)
Theorem escalation_freezes_requests fuel self :
  timeout_action (current_state self) = "escalate" ->
  exists self',
    _handle_timeout getattr py_str fuel self = Ret self' /\
    instance self' = instance self /\
    current_state self' = current_state self /\
    db_instances (db self') = db_instances (db self) /\
    db_state_history (db self') = db_state_history (db self) /\
    List.length (db_approval_requests (db self'))
    = List.length (db_approval_requests (db self)) /\
    (forall r, In r (db_approval_requests (db self')) ->
       req_instance r = inst_id (instance self) ->
       req_status r <> PENDING) /\
    (forall r, In r (db_approval_requests (db self)) ->
       req_instance r <> inst_id (instance self) \/ req_status r <> PENDING ->
       In r (db_approval_requests (db self'))) /\
    (forall r, In r (db_approval_requests (db self)) ->
       req_instance r = inst_id (instance self) ->
       req_status r = PENDING ->
       In (set_req_status r ESCALATED) (db_approval_requests (db self')) /\
       forall fuel' user decision comments signature,
         process_approval getattr py_str fuel' self'
           (set_req_status r ESCALATED) user decision comments signature
         = Ret (false, Some "Approval request is not pending",
                set_req_status r ESCALATED, self')).
Proof.
  intros Haction. eexists. split.
  - unfold Workflow._handle_timeout. rewrite Haction. simpl. reflexivity.
  - cbn [instance current_state db set_db db_instances db_state_history
         db_approval_requests set_db_approval_requests].
    repeat split.
    + apply length_map.
    + intros r Hin Hinst Hst. apply in_map_iff in Hin.
      destruct Hin as [r0 [Hr0 Hin]].
      destruct (Nat.eqb (req_instance r0) (inst_id (instance self)) &&
                RequestStatus_eqb (req_status r0) PENDING) eqn:E.
      * subst r. simpl in Hst. discriminate.
      * subst r0. rewrite Hinst, Nat.eqb_refl, Hst in E. discriminate.
    + intros r Hin Hother. apply in_map_iff. exists r. split; [| exact Hin].
      destruct Hother as [Hne | Hne].
      * apply Nat.eqb_neq in Hne. rewrite Hne. reflexivity.
      * destruct (req_status r); try congruence;
          rewrite andb_false_r; reflexivity.
    + apply in_map_iff. exists r. split; [| assumption].
      rewrite H0, Nat.eqb_refl, H1. reflexivity.
Qed.

(** *** The sweep *)







End Steps.

(** *** Starting a workflow *)

Section Start.

Variable state_order : WorkflowState -> nat.

(** X9.  [start_workflow] raises [ValueError] exactly when the
    definition has no state flagged initial; the status of the
    definition is not looked at.  Otherwise the new instance is active
    in an initial state of the definition, with one ledger entry that
    has no source state, and with no deadline even when the initial
    state has a timeout: no sweep selects it until a transition has
    been executed. *)
Theorem start_workflow_outcome wf states r user tenant_id d t :
  ((forall s, In s (own_states wf states) -> is_initial s = false) ->
     start_workflow state_order wf states r user tenant_id d t
     = Raise (ValueError
                (String.append "Workflow "
                   (String.append (wf_name wf) " has no initial state")))) /\
  ((exists s, In s (own_states wf states) /\ is_initial s = true) ->
     exists e,
       start_workflow state_order wf states r user tenant_id d t = Ret e /\
       In (current_state e) (own_states wf states) /\
       is_initial (current_state e) = true /\
       in_sync e /\
       workflow e = wf_id wf /\
       inst_status (instance e) = INST_ACTIVE /\
       state_entered_at (instance e) = t /\
       state_deadline (instance e) = None /\
       (forall t', ~ In (instance e) (timed_out (db e) t')) /\
       db_state_history (db e)
       = db_state_history d ++
         [{| h_instance := inst_id (instance e);
             h_from_state := None;
             h_to_state := state_id (current_state e);
             h_transition := None;
             h_triggered_by := user_id user;
             h_action := "workflow_started";
             h_notes := "Workflow started";
             h_time_in_state := None |}]).
Proof.
  unfold start_workflow, start_instance, get_initial_state. split.
  - intros Hnone.
    assert (E : filter is_initial (own_states wf states) = []).
    { induction (own_states wf states) as [| s l IH]; [reflexivity |].
      simpl. rewrite (Hnone s) by (left; reflexivity).
      apply IH. intros s' Hs'. apply Hnone. right. exact Hs'. }
    rewrite E. reflexivity.
  - intros [s [Hin Hinit]].
    destruct (first_by state_order (filter is_initial (own_states wf states)))
      as [s0 |] eqn:E.
    + apply WorkflowSpec.first_by_In, filter_In in E. destruct E as [H0 H1].
      eexists. split; [reflexivity |].
      cbn [bind new_engine current_state instance workflow db
           inst_current_state inst_status state_entered_at state_deadline
           inst_workflow_id inst_id].
      split; [exact H0 |]. split; [exact H1 |].
      split; [split; [reflexivity | simpl; apply in_or_app; right; left;
                                    reflexivity] |].
      repeat split.
      intros t' Ht. unfold timed_out in Ht. apply filter_In in Ht.
      destruct Ht as [_ Ht]. simpl in Ht. discriminate.
    + apply WorkflowSpec.first_by_None in E.
      assert (Hs : In s (filter is_initial (own_states wf states)))
        by (apply filter_In; auto).
      rewrite E in Hs. contradiction.
Qed.

End Start.

(** *** The life cycle of a definition *)

(** X10.  A definition moves one way: [activate] succeeds only from
    draft and cannot be repeated, [deprecate] succeeds exactly from
    active, and from deprecated or archived both views answer 400 and
    leave the definition as it is. *)
Theorem definition_lifecycle_one_way wf states user :
  (status_code (fst (activate wf states user)) = 200 ->
     wf_status wf = DRAFT /\
     (forall states' user',
        activate (snd (activate wf states user)) states' user'
        = (bad_request "Only draft workflows can be activated.",
           snd (activate wf states user))) /\
     wf_status (snd (deprecate (snd (activate wf states user)) user))
     = DEPRECATED) /\
  (status_code (fst (deprecate wf user)) = 200 <-> wf_status wf = ACTIVE) /\
  (wf_status wf <> ACTIVE -> snd (deprecate wf user) = wf) /\
  (wf_status wf = DEPRECATED \/ wf_status wf = ARCHIVED ->
     status_code (fst (activate wf states user)) = 400 /\
     snd (activate wf states user) = wf /\
     status_code (fst (deprecate wf user)) = 400 /\
     snd (deprecate wf user) = wf).
Proof.
  unfold activate, deprecate.
  destruct (wf_status wf) eqn:Hs; simpl;
    destruct (existsb is_initial (own_states wf states));
    destruct (existsb is_terminal (own_states wf states)); simpl;
    repeat split; intros; try discriminate; try congruence;
    try reflexivity;
    repeat match goal with
           | H : _ \/ _ |- _ => destruct H
           end; try discriminate; try congruence.
Qed.

(** X11.  [new_version] cannot succeed on a stored definition: the
    copy repeats the code of its parent, and the column [code] is
    unique, so saving the copy fails before any state or transition is
    copied. *)
Theorem new_version_repeats_unique_code
  workflow definitions states transitions user fresh :
  In workflow definitions ->
  new_version workflow definitions states transitions user fresh
  = IntegrityError.
Proof.
  intros Hin. unfold new_version, insert_definition.
  replace (existsb _ definitions) with true; [reflexivity |].
  symmetry. apply existsb_exists. exists workflow.
  split; [exact Hin | apply String.eqb_refl].
Qed.

(** *** Guards and conditions *)

Section Guards.

Variable getattr : Value -> string -> option Value.
Variable py_str : Value -> string.






(** X14.  [and] and [or] stop at the first operand that decides:
    after operands that evaluate truthy, a falsy operand makes [and]
    false, and after operands that evaluate falsy, a truthy operand
    makes [or] true, whatever follows, including operands that would
    raise. *)
Theorem boolean_operators_short_circuit fuel data rest before x after v :
  _evaluate getattr fuel x data = Ret v ->
  (Forall (fun a => exists w, _evaluate getattr fuel a data = Ret w /\
                              truthy w = true) before ->
   truthy v = false ->
   node getattr fuel data rest "and" (before ++ x :: after)
   = Ret (VBool false)) /\
  (Forall (fun a => exists w, _evaluate getattr fuel a data = Ret w /\
                              truthy w = false) before ->
   truthy v = true ->
   node getattr fuel data rest "or" (before ++ x :: after)
   = Ret (VBool true)).
Proof.
  intros Hx. split; intros Hbefore Hv.
  - change (py_all (fun e => _evaluate getattr fuel e data)
              (before ++ x :: after) = Ret (VBool false)).
    induction Hbefore as [| a l [w [Ha Hw]] _ IH]; simpl.
    + rewrite Hx. simpl. rewrite Hv. reflexivity.
    + rewrite Ha. simpl. rewrite Hw. exact IH.
  - change (py_any (fun e => _evaluate getattr fuel e data)
              (before ++ x :: after) = Ret (VBool true)).
    induction Hbefore as [| a l [w [Ha Hw]] _ IH]; simpl.
    + rewrite Hx. simpl. rewrite Hv. reflexivity.
    + rewrite Ha. simpl. rewrite Hw. exact IH.
Qed.

(** *** The record as the conditions see it *)

Lemma dict_get_set_same d k v : dict_get (dict_set d k v) k = Some v.
Proof.
  induction d as [| [k' v'] r IH]; simpl.
  - rewrite String.eqb_refl. reflexivity.
  - destruct (String.eqb k' k) eqn:E; simpl; rewrite E; [reflexivity | exact IH].
Qed.

Lemma dict_get_set_other d k k' v :
  k <> k' -> dict_get (dict_set d k v) k' = dict_get d k'.
Proof.
  intros Hne. induction d as [| [k0 v0] r IH]; simpl.
  - apply String.eqb_neq in Hne. rewrite Hne. reflexivity.
  - destruct (String.eqb k0 k) eqn:E; simpl.
    + apply String.eqb_eq in E. subst k0.
      apply String.eqb_neq in Hne. rewrite Hne. reflexivity.
    + destruct (String.eqb k0 k'); [reflexivity | exact IH].
Qed.

(** The public attributes of a record, as [_get_record_data] collects
    them before it adds the computed entries. *)
Lemma public_attributes_get name : forall attrs acc,
  startswith name "_" = false ->
  NoDup (map fst attrs) ->
  dict_get
    (fold_left
       (fun data kv =>
          if startswith (fst kv) "_" then data
          else dict_set data (fst kv) (snd kv))
       attrs acc) name
  = match dict_get attrs name with
    | Some v => Some v
    | None => dict_get acc name
    end.
Proof.
  intros attrs. induction attrs as [| [k x] l IH]; intros acc Hname Hnd;
    [reflexivity |].
  inversion Hnd as [| ? ? Hk Hl]; subst. simpl.
  destruct (String.eqb k name) eqn:E.
  - apply String.eqb_eq in E. subst k. rewrite Hname.
    rewrite IH by assumption.
    destruct (dict_get l name) eqn:G.
    + exfalso. apply Hk. clear - G.
      induction l as [| [k' x'] l IH]; simpl in *; [discriminate |].
      destruct (String.eqb k' name) eqn:E;
        [left; apply String.eqb_eq, E | right; apply IH, G].
    + apply dict_get_set_same.
  - rewrite IH by assumption.
    destruct (dict_get l name); [reflexivity |].
    destruct (startswith k "_"); [reflexivity |].
    apply dict_get_set_other. apply String.eqb_neq, E.
Qed.

Lemma underscore_differs name k :
  startswith name "_" = false -> startswith k "_" = true -> k <> name.
Proof. intros H1 H2 ->. congruence. Qed.

Lemma record_data_get r name :
  startswith name "_" = false ->
  NoDup (map fst (record_dict r)) ->
  dict_get (_get_record_data r) name = dict_get (record_dict r) name.
Proof.
  intros Hname Hnd. unfold _get_record_data.
  assert (Hu : forall k d v, startswith k "_" = true ->
                 dict_get (dict_set d k v) name = dict_get d name).
  { intros k d v Hk. apply dict_get_set_other.
    eapply underscore_differs; eassumption. }
  destruct (dict_get (record_dict r) "created_at");
    destruct (dict_get (record_dict r) "status");
    rewrite ?Hu by reflexivity;
    rewrite public_attributes_get by assumption;
    destruct (dict_get (record_dict r) name); reflexivity.
Qed.

(** X15.  A condition reads the record through its public attributes:
    for a record with distinct attribute names, [{"var": name}] with a
    name that does not begin with an underscore and has no dot is the
    value of that attribute, or the default when the attribute is
    absent or null; [{"var": "_id"}] is the primary key. *)
Theorem conditions_read_public_attributes fuel r name default rest :
  NoDup (map fst (record_dict r)) ->
  startswith name "_" = false ->
  truthy (VStr name) = true ->
  split name "." = [name] ->
  _evaluate getattr (S fuel)
    (VDict (("var", VList [VStr name; default]) :: rest))
    (_get_record_data r)
  = Ret (match dict_get (record_dict r) name with
         | Some VNone | None => default
         | Some v => v
         end) /\
  _evaluate getattr (S fuel) (VDict (("var", VStr "_id") :: rest))
    (_get_record_data r)
  = Ret (VStr (record_pk r)).
Proof.
  intros Hnd Hname Htruthy Hsplit. split.
  - simpl. unfold eval_node; simpl. unfold _get_var.
    rewrite Htruthy; simpl. rewrite Hsplit. simpl.
    rewrite record_data_get by assumption.
    destruct (dict_get (record_dict r) name) as [v |]; [| reflexivity].
    destruct v; reflexivity.
  - simpl. unfold eval_node; simpl. unfold _get_var; simpl.
    unfold _get_record_data.
    assert (Hu : forall k d v, k <> "_id" ->
                   dict_get (dict_set d k v) "_id" = dict_get d "_id").
    { intros k d v Hk. apply dict_get_set_other, Hk. }
    destruct (dict_get (record_dict r) "created_at");
      destruct (dict_get (record_dict r) "status");
      rewrite ?Hu by discriminate;
      rewrite dict_get_set_same; reflexivity.
Qed.



(** *** Listing the transitions *)






End Guards.

(** *** Concrete runs *)

Import Fixtures Samples.

Lemma transition_effects_witness :
  can_execute_transition no_attrs (mk_engine review chain_db) finish alice
  = Ret (true, None) /\
  exists e,
    execute_transition no_attrs str_of 1 (mk_engine review chain_db) finish
      alice "ok" false
    = Ret ((true, Some "Transitioned to done", None), e) /\
    current_state e = done /\
    inst_status (instance e) = INST_COMPLETED /\
    state_deadline (instance e) = None.
Proof.
  split; [reflexivity |].
  destruct (transition_effects no_attrs str_of 0 (mk_engine review chain_db)
              finish alice "ok" false None batch batch
              eq_refl eq_refl eq_refl eq_refl (or_introl eq_refl))
    as [e [Hrun [Hcur [_ [_ [Hdl [Hst _]]]]]]].
  exists e. repeat split; assumption.
Defined.

Lemma execution_ledger_path_witness :
  exists out e,
    execute_transition no_attrs str_of 3 (mk_engine draft chain_db) submit
      alice "" false = Ret (out, e) /\
    ledger_grows alice (mk_engine draft chain_db) e.
Proof.
  eexists. eexists. split; [reflexivity |].
  apply (execution_ledger_path no_attrs str_of 3 (mk_engine draft chain_db)
           submit alice "" false _ _ eq_refl).
Defined.


Lemma execution_stays_in_sync_witness :
  in_sync (mk_engine draft chain_db) /\
  exists out e,
    execute_transition no_attrs str_of 3 (mk_engine draft chain_db) submit
      alice "" false = Ret (out, e) /\
    in_sync e.
Proof.
  assert (Hsync : in_sync (mk_engine draft chain_db))
    by (split; [reflexivity | left; reflexivity]).
  split; [exact Hsync |].
  eexists. eexists. split; [reflexivity |].
  apply (execution_stays_in_sync no_attrs str_of 3 (mk_engine draft chain_db)
           submit alice "" false _ _ Hsync eq_refl).
Defined.

Lemma approval_completes_transition_witness :
  req_status (mk_request (mk_rule SINGLE 1)) = PENDING /\
  threshold_reached (mk_rule SINGLE 1) 0 /\
  exists e entry,
    process_approval no_attrs str_of 1
      (mk_engine draft (approval_db (mk_rule SINGLE 1)))
      (mk_request (mk_rule SINGLE 1)) bob "approved" "" None
    = Ret (true, Some "Transitioned to done",
           set_req_status (mk_request (mk_rule SINGLE 1)) APPROVED, e) /\
    current_state e = done /\
    h_triggered_by entry = user_id alice.
Proof.
  assert (Hreached : threshold_reached (mk_rule SINGLE 1) 0)
    by (left; reflexivity).
  split; [reflexivity |]. split; [exact Hreached |].
  destruct (approval_completes_transition no_attrs str_of 0
              (mk_engine draft (approval_db (mk_rule SINGLE 1)))
              (mk_request (mk_rule SINGLE 1)) bob "" None None batch batch
              eq_refl eq_refl Hreached eq_refl eq_refl eq_refl
              (or_introl eq_refl))
    as [e [entry [Hrun [Hcur [_ [_ [_ [Hby _]]]]]]]].
  exists e, entry. repeat split; assumption.
Defined.

Lemma approval_spent_on_denied_transition_witness :
  can_execute_transition no_attrs moved_on_engine release alice
  = Ret (false, Some "Transition not available from current state") /\
  threshold_reached (mk_rule ANY 1) 0 /\
  process_approval no_attrs str_of 1 moved_on_engine
    (mk_request (mk_rule ANY 1)) bob "approved" "" None
  = Ret (false, Some "Transition not available from current state",
         set_req_status (mk_request (mk_rule ANY 1)) APPROVED,
         approved_engine moved_on_engine (mk_request (mk_rule ANY 1)) bob
           "" None).
Proof.
  assert (Hreached : threshold_reached (mk_rule ANY 1) 0)
    by (right; left; reflexivity).
  split; [reflexivity |]. split; [exact Hreached |].
  exact (proj1 (approval_spent_on_denied_transition no_attrs str_of 0
                  moved_on_engine (mk_request (mk_rule ANY 1)) bob "" None
                  (Some "Transition not available from current state")
                  eq_refl eq_refl Hreached eq_refl)).
Defined.

Lemma escalation_freezes_requests_witness :
  timeout_action (current_state held_engine) = "escalate" /\
  exists e,
    _handle_timeout no_attrs str_of 0 held_engine = Ret e /\
    db_approval_requests (db e)
    = [set_req_status (mk_request (mk_rule ALL 2)) ESCALATED] /\
    process_approval no_attrs str_of 1 e
      (set_req_status (mk_request (mk_rule ALL 2)) ESCALATED)
      bob "approved" "" None
    = Ret (false, Some "Approval request is not pending",
           set_req_status (mk_request (mk_rule ALL 2)) ESCALATED, e).
Proof.
  split; [reflexivity |].
  destruct (escalation_freezes_requests no_attrs str_of 0 held_engine eq_refl)
    as [e [Hrun [_ [_ [_ [_ [_ [_ [_ Hfrozen]]]]]]]]].
  exists e. split; [exact Hrun |].
  split; [inversion Hrun; reflexivity |].
  exact (proj2 (Hfrozen (mk_request (mk_rule ALL 2))
                  (or_introl eq_refl) eq_refl eq_refl)
           1 bob "approved" "" None).
Defined.


Lemma start_workflow_outcome_witness :
  (exists s, In s (own_states twin_wf twin_states) /\ is_initial s = true) /\
  exists e,
    start_workflow state_id twin_wf twin_states batch alice ""
      (mk_db [] [] [] []) 60 = Ret e /\
    is_initial (current_state e) = true /\
    state_deadline (instance e) = None.
Proof.
  assert (Hinit : exists s, In s (own_states twin_wf twin_states) /\
                            is_initial s = true)
    by (exists (mk_initial 8 "start_a"); split; [left |]; reflexivity).
  split; [exact Hinit |].
  destruct (proj2 (start_workflow_outcome state_id twin_wf twin_states batch
                     alice "" (mk_db [] [] [] []) 60) Hinit)
    as [e [Hrun [_ [Hi [_ [_ [_ [_ [Hdl _]]]]]]]]].
  exists e. repeat split; assumption.
Defined.

Lemma definition_lifecycle_one_way_witness :
  status_code (fst (activate twin_wf twin_states 1)) = 200 /\
  activate (snd (activate twin_wf twin_states 1)) twin_states 1
  = (bad_request "Only draft workflows can be activated.",
     snd (activate twin_wf twin_states 1)).
Proof.
  assert (Hok : status_code (fst (activate twin_wf twin_states 1)) = 200)
    by reflexivity.
  split; [exact Hok |].
  exact (proj1 (proj2 (proj1 (definition_lifecycle_one_way twin_wf
                                twin_states 1) Hok)) twin_states 1).
Defined.

Lemma new_version_repeats_unique_code_witness :
  In batch_v1 [batch_v1] /\
  new_version batch_v1 [batch_v1] twin_states [submit; finish] 1 100
  = IntegrityError.
Proof.
  assert (Hin : In batch_v1 [batch_v1]) by (left; reflexivity).
  split; [exact Hin |].
  exact (new_version_repeats_unique_code batch_v1 [batch_v1] twin_states
           [submit; finish] 1 100 Hin).
Defined.



Lemma boolean_operators_short_circuit_witness :
  _evaluate no_attrs 1 (VBool false) [] = Ret (VBool false) /\
  node no_attrs 1 [] [] "and"
    ([VInt 1] ++ VBool false :: [VDict [("+", VList [VStr "a"])]])
  = Ret (VBool false).
Proof.
  split; [reflexivity |].
  apply (proj1 (boolean_operators_short_circuit no_attrs 1 [] []
                  [VInt 1] (VBool false) [VDict [("+", VList [VStr "a"])]]
                  (VBool false) eq_refl)).
  - constructor; [| constructor]. exists (VInt 1). split; reflexivity.
  - reflexivity.
Defined.

Lemma conditions_read_public_attributes_witness :
  NoDup (map fst (record_dict batch)) /\
  startswith "status" "_" = false /\
  split "status" "." = ["status"] /\
  _evaluate no_attrs 1 (VDict [("var", VList [VStr "status"; VNone])])
    (_get_record_data batch) = Ret (VStr "draft").
Proof.
  assert (Hnd : NoDup (map fst (record_dict batch)))
    by (simpl; constructor; [intros [] | constructor]).
  split; [exact Hnd |]. split; [reflexivity |]. split; [reflexivity |].
  exact (proj1 (conditions_read_public_attributes no_attrs 0 batch "status"
                  VNone [] Hnd eq_refl eq_refl eq_refl)).
Defined.




End EngineFacts.
